(** * Availability strategies of acecommerce/models.py

    A shallow embedding of the availability subsystem: the three helper
    models ([BooleanAvailability], [CountdownAvailability],
    [DateRangeAvailability]), the no-op [AvailabilityMixin], and the
    [Availability] facade that looks its helper up through
    [gf(self.availability_type.code).objects.get(availability=self)].

    Python integers are unbounded, so quantities and the counter of an
    instance are [Z]; the counter of a stored row is an integer column,
    which holds 64 bits.  A model instance is a record carrying its
    primary key ([None] until it is first saved); the database is one
    table per model, a finite map from primary keys to rows.  [save()]
    can be refused: by the column, or by [unique=True] on
    [availability].  Methods that read or write [self] or the database
    run in a small state-and-exception monad whose result always carries
    the final state, so that what an exception leaves behind can be
    stated.  Callers of the facade that run at the same time are
    schedules over its two database operations. *)

From stdpp Require Import gmap strings.
From Stdlib Require Import ZArith Lia.

Local Open Scope Z_scope.

(** ** Exceptions and the method monad *)

(** The model classes a type code can resolve to. *)
Inductive model_class : Type :=
| cls_BooleanAvailability
| cls_CountdownAvailability
| cls_DateRangeAvailability.

(** Exceptions that reach the caller.  [QuantityExceedsAvailable] is the
    one class defined in models.py; [DoesNotExist],
    [MultipleObjectsReturned] and [FieldError] are what
    [Manager.get] raises (no row, several rows, a keyword that
    names no field of the model); [OverflowError] and [IntegrityError]
    are what [Model.save] raises when the database refuses the row (an
    integer the column cannot hold, a second row for a unique column);
    [ResolutionError] stands for whatever [gf] raises on a code it cannot
    resolve. *)
Inductive exn : Type :=
| QuantityExceedsAvailable
| DoesNotExist (c : model_class)
| MultipleObjectsReturned (c : model_class)
| FieldError (c : model_class) (keyword : string)
| OverflowError
| IntegrityError (c : model_class)
| ResolutionError (code : string).

Inductive outcome (A : Type) : Type :=
| Returns (a : A)
| Raises (e : exn).
Arguments Returns {A} a.
Arguments Raises {A} e.

(** A method body over a state [S]: it ends by returning or raising, and
    in both cases hands back the state it reached. *)
Definition M (S A : Type) : Type := S -> outcome A * S.

Definition ret {S A} (a : A) : M S A := fun s => (Returns a, s).

Definition raise {S A} (e : exn) : M S A := fun s => (Raises e, s).

Definition bind {S A B} (m : M S A) (k : A -> M S B) : M S B :=
  fun s =>
    match m s with
    | (Returns a, s') => k a s'
    | (Raises e, s') => (Raises e, s')
    end.

Definition gets {S A} (f : S -> A) : M S A := fun s => (Returns (f s), s).

Definition modify {S} (f : S -> S) : M S unit := fun s => (Returns tt, f s).

#[global] Instance M_ret {S} : MRet (M S) := fun A => @ret S A.
#[global] Instance M_bind {S} : MBind (M S) := fun A B k m => @bind S A B m k.

(** Run a method of a freshly loaded object [o] against the outer state:
    the object lives for the duration of the call and is then dropped. *)
Definition with_object {O S A} (o : O) (m : M (O * S) A) : M S A :=
  fun s => let '(r, (_, s')) := m (o, s) in (r, s').

(** ** Tables *)

(** A table: its rows by primary key, and the key the next INSERT gets. *)
Record table (R : Type) : Type := mk_table {
  rows : gmap positive R;
  next_pk : positive
}.
Arguments mk_table {R} rows next_pk.
Arguments rows {R} t.
Arguments next_pk {R} t.

(** The least key above every key in use (1 for no rows). *)
Definition above_keys {R} (m : gmap positive R) : positive :=
  foldr (fun k acc => Pos.max (Pos.succ k) acc) 1%positive (map_to_list m).*1.

(** The key an INSERT without a key gets: one the sequence has not handed
    out and no row holds. *)
Definition fresh_key {R} (tb : table R) : positive :=
  Pos.max (next_pk tb) (above_keys (rows tb)).

(** [unique=True] on column [col]: row [r], written for an instance
    whose key is [pk], meets no other row with its value in the column. *)
Definition no_conflict {R} (col : R -> positive) (pk : option positive) (r : R)
  (tb : table R) : Prop :=
  map_Forall (fun k' r' => col r' = col r -> pk = Some k') (rows tb).

(** Where the row goes once the database takes it: UPDATE when the
    instance has a key and the table a row under it, INSERT at that key
    when it has not (the sequence moves past the key), INSERT at a fresh
    key when the instance has none.  Returns the key the row now lives
    under. *)
Definition write_row {R} (pk : option positive) (r : R) (tb : table R)
  : positive * table R :=
  match pk with
  | Some k =>
      match rows tb !! k with
      | Some _ => (k, mk_table (<[k := r]> (rows tb)) (next_pk tb))
      | None =>
          (k, mk_table (<[k := r]> (rows tb)) (Pos.max (next_pk tb) (Pos.succ k)))
      end
  | None =>
      let k := fresh_key tb in
      (k, mk_table (<[k := r]> (rows tb)) (Pos.succ k))
  end.

(** [Model.save()] on the table of a model with a unique column: the
    write, or [None] when the database refuses it for the constraint. *)
Definition save_row {R} (col : R -> positive) (pk : option positive) (r : R)
  (tb : table R) : option (positive * table R) :=
  if decide (no_conflict col pk r tb) then Some (write_row pk r tb) else None.

(** ** Integer columns *)

(** What an integer column holds: a signed 64-bit value.  The driver
    refuses to bind anything else. *)
Definition integer_min : Z := -9223372036854775808.
Definition integer_max : Z := 9223372036854775807.

Definition in_column (v : Z) : bool :=
  (integer_min <=? v) && (v <=? integer_max).

Record column_int : Type := mk_column_int {
  column_value : Z;
  column_ok : Is_true (in_column column_value)
}.

(** Binding a Python integer to the column. *)
Definition to_column (v : Z) : option column_int :=
  match decide (Is_true (in_column v)) with
  | left H => Some (mk_column_int v H)
  | right _ => None
  end.

(** The rows a queryset filter selects, here by one column. *)
Definition select_by {R} (col : R -> positive) (v : positive) (tb : table R)
  : list (positive * R) :=
  map_to_list (filter (fun kr => col kr.2 = v) (rows tb)).

(** The table holds row [r] under key [k], it has value [v] in the column,
    and no other row has: what [unique=True] on the column gives once the
    row exists. *)
Definition sole_row {R} (col : R -> positive) (v : positive) (tb : table R)
  (k : positive) (r : R) : Prop :=
  rows tb !! k = Some r
  /\ col r = v
  /\ forall k' r', rows tb !! k' = Some r' -> col r' = v -> k' = k.

(** [Manager.get]: exactly one selected row, or an exception. *)
Definition get_one {R} (c : model_class) (sel : list (positive * R))
  : outcome (positive * R) :=
  match sel with
  | [] => Raises (DoesNotExist c)
  | [kr] => Returns kr
  | _ :: _ :: _ => Raises (MultipleObjectsReturned c)
  end.

(** ** Dates *)

(** [datetime.date]: compared as the triple (year, month, day). *)
Record date : Type := mk_date { year : Z; month : Z; day : Z }.

Definition date_cmp (a b : date) : comparison :=
  match year a ?= year b with
  | Eq =>
      match month a ?= month b with
      | Eq => day a ?= day b
      | c => c
      end
  | c => c
  end.

(** [a < b] and [a > b] on dates. *)
Definition date_lt (a b : date) : bool :=
  match date_cmp a b with Lt => true | _ => false end.

Definition date_gt (a b : date) : bool :=
  match date_cmp a b with Gt => true | _ => false end.

(** Calendar order: [a] is a day strictly before [b]. *)
Definition before (a b : date) : Prop :=
  year a < year b
  \/ (year a = year b
      /\ (month a < month b \/ (month a = month b /\ day a < day b))).

(** ** AvailabilityMixin: the no-op defaults *)

Module AvailabilityMixin.

Definition quantity_available {Self S : Type} (quantity : Z) : M (Self * S) bool :=
  ret true.

Definition record_purchase {Self S : Type} (quantity : Z) : M (Self * S) unit :=
  ret tt.

End AvailabilityMixin.

(** ** Rows and the database *)

(** [BooleanAvailability]: [availability] (unique foreign key, held as the
    key of the [Availability] row) and [is_available]. *)
Record BooleanAvailability_row : Type := mk_boolean_row {
  boolean_row_availability : positive;
  boolean_row_is_available : bool
}.

(** [CountdownAvailability]: [availability] and [num_products], an
    integer column. *)
Record CountdownAvailability_row : Type := mk_countdown_row {
  countdown_row_availability : positive;
  countdown_row_count : column_int
}.

Definition countdown_row_num_products (r : CountdownAvailability_row) : Z :=
  column_value (countdown_row_count r).

(** [DateRangeAvailability]: [start_date] and [end_date], both nullable.
    The model declares no [availability] field. *)
Record DateRangeAvailability_row : Type := mk_daterange_row {
  daterange_row_start_date : option date;
  daterange_row_end_date : option date
}.

Record Database : Type := mk_db {
  boolean_table : table BooleanAvailability_row;
  countdown_table : table CountdownAvailability_row;
  daterange_table : table DateRangeAvailability_row
}.

(** ** BooleanAvailability *)

Module BooleanAvailability.

Record t : Type := mk {
  pk : option positive;
  availability : positive;
  is_available : bool
}.

Definition of_row (kr : positive * BooleanAvailability_row) : t :=
  mk (Some kr.1) (boolean_row_availability kr.2) (boolean_row_is_available kr.2).

Definition available : M (t * Database) bool :=
  self ← gets fst;
  mret (is_available self).

(** Inherited from [AvailabilityMixin]. *)
Definition quantity_available (quantity : Z) : M (t * Database) bool :=
  AvailabilityMixin.quantity_available quantity.

Definition record_purchase (quantity : Z) : M (t * Database) unit :=
  AvailabilityMixin.record_purchase quantity.

End BooleanAvailability.

(** ** CountdownAvailability *)

Module CountdownAvailability.

Record t : Type := mk {
  pk : option positive;
  availability : positive;
  num_products : Z
}.

Definition of_row (kr : positive * CountdownAvailability_row) : t :=
  mk (Some kr.1) (countdown_row_availability kr.2) (countdown_row_num_products kr.2).

Definition available : M (t * Database) bool :=
  self ← gets fst;
  mret (if num_products self >? 0 then true else false).

Definition quantity_available (quantity : Z) : M (t * Database) bool :=
  self ← gets fst;
  mret (if quantity <=? num_products self then true else false).

(** [self.num_products = v] *)
Definition set_num_products (v : Z) : M (t * Database) unit :=
  modify (fun '(self, db) => (mk (pk self) (availability self) v, db)).

(** [self.save()]: writes the row and, on a first save, sets [self.pk].
    It raises, with the instance and the database as they were on
    entry, when the count does not fit the column ([OverflowError]) or
    when another row already holds the availability
    ([IntegrityError]). *)
Definition save : M (t * Database) unit :=
  fun '(self, db) =>
    match to_column (num_products self) with
    | None => (Raises OverflowError, (self, db))
    | Some v =>
        match save_row countdown_row_availability (pk self)
                (mk_countdown_row (availability self) v) (countdown_table db) with
        | None => (Raises (IntegrityError cls_CountdownAvailability), (self, db))
        | Some (k, tb) =>
            (Returns tt,
             (mk (Some k) (availability self) (num_products self),
              mk_db (boolean_table db) tb (daterange_table db)))
        end
    end.

Definition record_purchase (quantity : Z) : M (t * Database) unit :=
  self ← gets fst;
  if quantity >? num_products self then raise QuantityExceedsAvailable
  else
    set_num_products (Z.max (num_products self - quantity) 0);;
    save.

(** The database takes the row [record_purchase] would save for count
    [v]: the count fits the column and no other row holds the
    instance's availability. *)
Definition accepts (db : Database) (self : t) (v : Z) : Prop :=
  integer_min <= v <= integer_max
  /\ forall k r,
       rows (countdown_table db) !! k = Some r ->
       countdown_row_availability r = availability self ->
       pk self = Some k.

(** [CountdownAvailability.objects.get(pk=k).num_products]: a fresh read
    of the persisted counter. *)
Definition stored_num_products (k : positive) (db : Database) : option Z :=
  countdown_row_num_products <$> rows (countdown_table db) !! k.

(** A caller that issues one [record_purchase] per quantity in [qs] on
    the same instance, catching [QuantityExceedsAvailable] (or any other
    exception) and going on with the next one. *)
Fixpoint record_purchases (qs : list Z) (st : t * Database) : t * Database :=
  match qs with
  | [] => st
  | q :: qs' => record_purchases qs' (record_purchase q st).2
  end.

(** What the guard let through: the total of the quantities whose call
    did not raise [QuantityExceedsAvailable]. *)
Fixpoint debited_total (qs : list Z) (st : t * Database) : Z :=
  match qs with
  | [] => 0
  | q :: qs' =>
      let r := record_purchase q st in
      (match r.1 with Raises QuantityExceedsAvailable => 0 | _ => q end)
      + debited_total qs' r.2
  end.

(** What that caller was sold: the total of the quantities whose call
    returned. *)
Fixpoint accepted_total (qs : list Z) (st : t * Database) : Z :=
  match qs with
  | [] => 0
  | q :: qs' =>
      let r := record_purchase q st in
      (match r.1 with Returns _ => q | Raises _ => 0 end)
      + accepted_total qs' r.2
  end.

End CountdownAvailability.

(** ** DateRangeAvailability *)

Module DateRangeAvailability.

Record t : Type := mk {
  pk : option positive;
  start_date : option date;
  end_date : option date
}.

Definition of_row (kr : positive * DateRangeAvailability_row) : t :=
  mk (Some kr.1) (daterange_row_start_date kr.2) (daterange_row_end_date kr.2).

(** [x and f(x)] in a condition, for a nullable date [x]: a [date] object
    is always true, [None] is false. *)
Definition set_and (x : option date) (f : date -> bool) : bool :=
  match x with
  | Some d => f d
  | None => false
  end.

(** [today] is what [date.today()] returns when the method runs. *)
Definition available (today : date) : M (t * Database) bool :=
  self ← gets fst;
  if set_and (start_date self) (fun s => date_lt today s) then mret false
  else if set_and (end_date self) (fun e => date_gt today e) then mret false
  else mret true.

(** Inherited from [AvailabilityMixin]. *)
Definition quantity_available (quantity : Z) : M (t * Database) bool :=
  AvailabilityMixin.quantity_available quantity.

Definition record_purchase (quantity : Z) : M (t * Database) unit :=
  AvailabilityMixin.record_purchase quantity.

End DateRangeAvailability.

(** ** AvailabilityType and Availability *)

Module AvailabilityType.

Record t : Type := mk { name : string; code : string }.

End AvailabilityType.

(** What [Availability.helper] evaluates to: an instance of one of the
    helper models; the method calls on it dispatch on its class. *)
Inductive helper_object : Type :=
| BooleanHelper (h : BooleanAvailability.t)
| CountdownHelper (h : CountdownAvailability.t)
| DateRangeHelper (h : DateRangeAvailability.t).

Definition lift_outcome {S A} (o : outcome A) : M S A := fun s => (o, s).

(** [cls.objects.get(availability=a)], [a] being the key of a saved
    [Availability].  The two models that declare the [availability] field
    are searched on that column; [DateRangeAvailability] has no such
    field, and the query is rejected with [FieldError] before any row is
    looked at. *)
Definition objects_get_availability (cls : model_class) (a : positive)
  : M Database helper_object :=
  match cls with
  | cls_BooleanAvailability =>
      tb ← gets boolean_table;
      kr ← lift_outcome (get_one cls (select_by boolean_row_availability a tb));
      mret (BooleanHelper (BooleanAvailability.of_row kr))
  | cls_CountdownAvailability =>
      tb ← gets countdown_table;
      kr ← lift_outcome (get_one cls (select_by countdown_row_availability a tb));
      mret (CountdownHelper (CountdownAvailability.of_row kr))
  | cls_DateRangeAvailability =>
      raise (FieldError cls "availability")
  end.

(** [h.available()] on a helper that was just loaded: the instance is
    not kept afterwards, the database is. *)
Definition helper_available (today : date) (h : helper_object)
  : M Database bool :=
  match h with
  | BooleanHelper b => with_object b BooleanAvailability.available
  | CountdownHelper c => with_object c CountdownAvailability.available
  | DateRangeHelper d => with_object d (DateRangeAvailability.available today)
  end.

(** [h.record_purchase(quantity=quantity)] *)
Definition helper_record_purchase (h : helper_object) (quantity : Z)
  : M Database unit :=
  match h with
  | BooleanHelper b => with_object b (BooleanAvailability.record_purchase quantity)
  | CountdownHelper c => with_object c (CountdownAvailability.record_purchase quantity)
  | DateRangeHelper d => with_object d (DateRangeAvailability.record_purchase quantity)
  end.

Module Availability.

Record t : Type := mk {
  pk : positive;
  availability_type : AvailabilityType.t
}.

Section WithRegistry.

(** [acecommerce.utils.gf] is imported by models.py but defined
    elsewhere: it takes the type's code and returns the model class
    the code stands for, or raises.  It is a parameter here. *)
Variable gf : string -> outcome model_class.

(** The [helper] property; every access runs the query again. *)
Definition helper (self : t) : M Database helper_object :=
  cls ← lift_outcome (gf (AvailabilityType.code (availability_type self)));
  objects_get_availability cls (pk self).

Definition available (today : date) (self : t) : M Database bool :=
  h ← helper self;
  helper_available today h.

Definition record_purchase (self : t) (quantity : Z) : M Database unit :=
  h ← helper self;
  helper_record_purchase h quantity.

(** A caller that issues one [record_purchase] per quantity in [qs] on
    the same availability, going on after an exception; it keeps the
    outcome of every call. *)
Fixpoint record_purchases (self : t) (qs : list Z) (db : Database)
  : list (outcome unit) * Database :=
  match qs with
  | [] => ([], db)
  | q :: qs' =>
      let r := record_purchase self q db in
      let rest := record_purchases self qs' r.2 in
      (r.1 :: rest.1, rest.2)
  end.

End WithRegistry.

End Availability.

(** ** Callers that interleave *)

(** One caller inside [Availability.record_purchase(quantity)].  The
    method body is two database operations, the query behind
    [self.helper] and the helper's [record_purchase]; nothing in
    models.py holds a lock or a transaction across them, so another
    caller can run in between. *)
Inductive caller : Type :=
| Calling (quantity : Z)
| Loaded (h : helper_object) (quantity : Z)
| Finished (o : outcome unit).

Module Interleaving.

Section WithRegistry.

Variable gf : string -> outcome model_class.
Variable self : Availability.t.

(** The caller's next operation. *)
Definition step (c : caller) (db : Database) : caller * Database :=
  match c with
  | Calling q =>
      match Availability.helper gf self db with
      | (Returns h, db') => (Loaded h q, db')
      | (Raises e, db') => (Finished (Raises e), db')
      end
  | Loaded h q =>
      let r := helper_record_purchase h q db in
      (Finished r.1, r.2)
  | Finished o => (Finished o, db)
  end.

(** The scheduler lets caller [i] go. *)
Definition step_at (st : list caller * Database) (i : nat)
  : list caller * Database :=
  match st.1 !! i with
  | Some c => let r := step c st.2 in (<[i := r.1]> st.1, r.2)
  | None => st
  end.

Definition run (schedule : list nat) (st : list caller * Database)
  : list caller * Database :=
  foldl step_at st schedule.

(** The schedule that lets each of [n] callers finish before the next
    one starts. *)
Definition one_by_one (n : nat) : list nat :=
  flat_map (fun i => [i; i]) (seq 0 n).

(** The schedule in which all [n] callers run their query before any of
    them goes on. *)
Definition all_read_first (n : nat) : list nat := seq 0 n ++ seq 0 n.

End WithRegistry.

End Interleaving.

(** ** Product options and SKU configurations *)

(** Only the columns the text methods read are kept: the foreign keys
    to the product type and to the SKU play no part in them. *)
Module ProductOption.

Record t : Type := mk { name : string }.

Definition __unicode__ (self : t) : string := name self.

End ProductOption.

Module ProductOptionValue.

Record t : Type := mk { product_option : ProductOption.t; value : string }.

Definition __unicode__ (self : t) : string := value self.

End ProductOptionValue.

Module SKUConfiguration.

Record t : Type := mk { option : ProductOption.t; value : ProductOptionValue.t }.

(** [u'%s : %s' % (unicode(self.option), unicode(self.value))] *)
Definition __unicode__ (self : t) : string :=
  String.append (ProductOption.__unicode__ (option self))
    (String.append " : " (ProductOptionValue.__unicode__ (value self))).

End SKUConfiguration.

(** ** Sample data *)

Definition empty_table {R} : table R := mk_table ∅ 1%positive.

Definition empty_db : Database := mk_db empty_table empty_table empty_table.

(** A registry that resolves three codes. *)
Definition sample_gf (code : string) : outcome model_class :=
  if String.eqb code "boolean" then Returns cls_BooleanAvailability
  else if String.eqb code "countdown" then Returns cls_CountdownAvailability
  else if String.eqb code "daterange" then Returns cls_DateRangeAvailability
  else Raises (ResolutionError code).

(** One availability of each kind, with keys 1, 2 and 3, and a helper row
    for each. *)
Definition sample_db : Database :=
  mk_db
    (mk_table {[ 1%positive := mk_boolean_row 1 true ]} 2)
    (mk_table {[ 1%positive := mk_countdown_row 2 (mk_column_int 5 I) ]} 2)
    (mk_table {[ 1%positive := mk_daterange_row
                   (Some (mk_date 2024 1 1)) (Some (mk_date 2024 12 31)) ]} 2).

Definition sample_availability (k : positive) (code : string) : Availability.t :=
  Availability.mk k (AvailabilityType.mk code code).

(** The countdown row of availability 2, holding [v]. *)
Definition sample_countdown_row (v : column_int) : CountdownAvailability_row :=
  mk_countdown_row 2 v.


Example sample_boolean_available :
  Availability.available sample_gf (mk_date 2025 1 1)
    (sample_availability 1 "boolean") sample_db = (Returns true, sample_db).
Proof. vm_compute. reflexivity. Qed.

Example sample_countdown_purchase :
  (Availability.record_purchase sample_gf (sample_availability 2 "countdown") 3
     sample_db).1 = Returns tt
  /\ CountdownAvailability.stored_num_products 1
       (Availability.record_purchase sample_gf (sample_availability 2 "countdown") 3
          sample_db).2 = Some 2.
Proof. vm_compute. split; reflexivity. Qed.

Example sample_countdown_scenario :
  let c := CountdownAvailability.mk None 2 5 in
  let st1 := CountdownAvailability.record_purchase 3 (c, empty_db) in
  let st2 := CountdownAvailability.record_purchase 3 st1.2 in
  st1.1 = Returns tt
  /\ CountdownAvailability.num_products st1.2.1 = 2
  /\ st2.1 = Raises QuantityExceedsAvailable
  /\ CountdownAvailability.num_products st2.2.1 = 2
  /\ st2.2 = st1.2.
Proof. vm_compute. repeat split; reflexivity. Qed.

Example sample_daterange_scenario :
  (DateRangeAvailability.available (mk_date 2025 1 1)
     (DateRangeAvailability.mk (Some 1%positive)
        (Some (mk_date 2024 1 1)) (Some (mk_date 2024 12 31)), sample_db)).1
  = Returns false.
Proof. reflexivity. Qed.

(** A count the column cannot hold: the save raises after the
    assignment, and nothing is stored. *)
Example sample_overflow :
  let c := CountdownAvailability.mk (Some 1%positive) 2 5 in
  let st := CountdownAvailability.record_purchase (-9223372036854775808) (c, sample_db) in
  st.1 = Raises OverflowError
  /\ CountdownAvailability.num_products st.2.1 = 9223372036854775813
  /\ st.2.2 = sample_db.
Proof. vm_compute. repeat split; reflexivity. Qed.

(** An unsaved instance for an availability that has its row: the INSERT
    is refused. *)
Example sample_duplicate :
  let c := CountdownAvailability.mk None 2 5 in
  let st := CountdownAvailability.record_purchase 5 (c, sample_db) in
  st.1 = Raises (IntegrityError cls_CountdownAvailability)
  /\ CountdownAvailability.num_products st.2.1 = 0
  /\ st.2.2 = sample_db.
Proof. vm_compute. repeat split; reflexivity. Qed.

(** An INSERT at a key of the caller's choice moves the sequence past
    it. *)
Example sample_explicit_key :
  let c := CountdownAvailability.mk (Some 1%positive) 2 5 in
  let st := CountdownAvailability.record_purchase 0 (c, empty_db) in
  st.1 = Returns tt /\ next_pk (countdown_table st.2.2) = 2%positive.
Proof. vm_compute. split; reflexivity. Qed.

(** ** The date comparisons decide the calendar order *)

Lemma date_lt_before (a b : date) : date_lt a b = true <-> before a b.
Proof.
  unfold date_lt, date_cmp, before.
  destruct (Z.compare_spec (year a) (year b));
    destruct (Z.compare_spec (month a) (month b));
    destruct (Z.compare_spec (day a) (day b));
    split; intros; try discriminate; try reflexivity; lia.
Qed.

Lemma date_gt_before (a b : date) : date_gt a b = true <-> before b a.
Proof.
  unfold date_gt, date_cmp, before.
  destruct (Z.compare_spec (year a) (year b));
    destruct (Z.compare_spec (month a) (month b));
    destruct (Z.compare_spec (day a) (day b));
    split; intros; try discriminate; try reflexivity; lia.
Qed.

Lemma before_dec (a b : date) : {before a b} + {~ before a b}.
Proof.
  destruct (date_lt a b) eqn:E.
  - left. apply date_lt_before, E.
  - right. intros H. apply date_lt_before in H. congruence.
Qed.

(** An empty window leaves no day: whoever is not before [s] is after any
    [e] that lies before [s]. *)
Lemma before_cover (s e today : date) :
  before e s -> before today s \/ before e today.
Proof. unfold before. lia. Qed.

(** ** Integer columns and keys *)

Lemma in_column_spec (v : Z) :
  Is_true (in_column v) <-> integer_min <= v <= integer_max.
Proof.
  unfold in_column. rewrite andb_True, !Is_true_true, !Z.leb_le. reflexivity.
Qed.

Lemma column_value_range (c : column_int) :
  integer_min <= column_value c <= integer_max.
Proof. apply in_column_spec, column_ok. Qed.

Lemma column_int_eq (c1 c2 : column_int) :
  column_value c1 = column_value c2 -> c1 = c2.
Proof.
  destruct c1 as [v1 H1], c2 as [v2 H2]. cbn. intros ->.
  f_equal. apply proof_irrel.
Qed.

Lemma to_column_fits (v : Z) :
  integer_min <= v <= integer_max ->
  exists c, to_column v = Some c /\ column_value c = v.
Proof.
  intros H. unfold to_column.
  destruct (decide (Is_true (in_column v))) as [Hok|Hno].
  - eexists. split; reflexivity.
  - exfalso. apply Hno, in_column_spec, H.
Qed.

Lemma to_column_value (v : Z) (c : column_int) :
  to_column v = Some c -> column_value c = v.
Proof.
  unfold to_column. destruct (decide _); [|discriminate].
  intros [= <-]. reflexivity.
Qed.

Lemma to_column_overflow (v : Z) :
  ~ (integer_min <= v <= integer_max) -> to_column v = None.
Proof.
  intros H. unfold to_column.
  destruct (decide (Is_true (in_column v))) as [Hok|Hno]; [|reflexivity].
  exfalso. apply H, in_column_spec, Hok.
Qed.

Lemma above_keys_above {R} (m : gmap positive R) (k : positive) (r : R) :
  m !! k = Some r -> (k < above_keys m)%positive.
Proof.
  intros H. unfold above_keys.
  assert (Hin : k ∈ (map_to_list m).*1).
  { apply list_elem_of_fmap. exists (k, r). split; [reflexivity|].
    apply elem_of_map_to_list, H. }
  clear H. generalize dependent ((map_to_list m).*1). intros l Hin.
  induction Hin as [k l | k k' l _ IH]; cbn [foldr].
  - apply Pos.lt_le_trans with (Pos.succ k); [apply Pos.lt_succ_diag_r|].
    apply Pos.le_max_l.
  - apply Pos.lt_le_trans with (1 := IH). apply Pos.le_max_r.
Qed.

(** A fresh key holds no row. *)
Lemma fresh_key_free {R} (tb : table R) : rows tb !! fresh_key tb = None.
Proof.
  destruct (rows tb !! fresh_key tb) as [r|] eqn:E; [|reflexivity].
  apply above_keys_above in E. unfold fresh_key in E.
  pose proof (Pos.le_max_r (next_pk tb) (above_keys (rows tb))). lia.
Qed.

Lemma write_row_rows {R} (pk : option positive) (r : R) (tb : table R) :
  rows (write_row pk r tb).2 = <[(write_row pk r tb).1 := r]> (rows tb).
Proof.
  unfold write_row. destruct pk as [k|]; [destruct (rows tb !! k)|]; reflexivity.
Qed.

Lemma write_row_key {R} (k : positive) (r : R) (tb : table R) :
  (write_row (Some k) r tb).1 = k.
Proof. unfold write_row. destruct (rows tb !! k); reflexivity. Qed.

Lemma write_row_insert_free {R} (r : R) (tb : table R) :
  rows tb !! (write_row None r tb).1 = None.
Proof. apply fresh_key_free. Qed.

(** The sequence never moves back, and stays where it is on an UPDATE. *)
Lemma write_row_next_pk {R} (pk : option positive) (r : R) (tb : table R) :
  (next_pk tb <= next_pk (write_row pk r tb).2)%positive
  /\ (forall k, pk = Some k -> is_Some (rows tb !! k) ->
        next_pk (write_row pk r tb).2 = next_pk tb)
  /\ (rows tb !! (write_row pk r tb).1 = None ->
        ((write_row pk r tb).1 < next_pk (write_row pk r tb).2)%positive).
Proof.
  unfold write_row, fresh_key. destruct pk as [k|].
  - destruct (rows tb !! k) as [x|] eqn:E; cbn; rewrite ?E.
    + split; [lia|]. split; [reflexivity | discriminate].
    + pose proof (Pos.le_max_l (next_pk tb) (Pos.succ k)).
      pose proof (Pos.le_max_r (next_pk tb) (Pos.succ k)).
      split; [lia|]. split; [|lia]. intros k0 [= <-] [x Hx]. congruence.
  - cbn. pose proof (Pos.le_max_l (next_pk tb) (above_keys (rows tb))).
    split; [lia|]. split; [discriminate | lia].
Qed.

(** ** CountdownAvailability *)

Section Countdown.

Import CountdownAvailability.

Variables (self : t) (db : Database).

Lemma record_purchase_eq (q : Z) :
  record_purchase q (self, db) =
  if q >? num_products self
  then (Raises QuantityExceedsAvailable, (self, db))
  else save (mk (pk self) (availability self) (Z.max (num_products self - q) 0), db).
Proof.
  unfold record_purchase, mbind, M_bind, bind, gets, set_num_products, modify, raise;
    cbn.
  destruct (q >? num_products self); reflexivity.
Qed.

(** [save()] leaves the fields it writes as they are. *)
Lemma save_instance :
  num_products (save (self, db)).2.1 = num_products self
  /\ availability (save (self, db)).2.1 = availability self.
Proof.
  unfold save. destruct (to_column _); [|split; reflexivity].
  destruct (save_row _ _ _ _) as [[k tb]|]; split; reflexivity.
Qed.

(** A [save()] that raises has changed nothing, and raises one of two
    exceptions. *)
Lemma save_raises (e : exn) :
  (save (self, db)).1 = Raises e ->
  (save (self, db)).2 = (self, db)
  /\ (e = OverflowError \/ e = IntegrityError cls_CountdownAvailability).
Proof.
  unfold save. destruct (to_column _).
  - destruct (save_row _ _ _ _) as [[k tb]|]; cbn; [discriminate|].
    intros [= <-]. auto.
  - cbn. intros [= <-]. auto.
Qed.

Lemma save_overflows :
  ~ (integer_min <= num_products self <= integer_max) ->
  save (self, db) = (Raises OverflowError, (self, db)).
Proof. intros H. unfold save. rewrite (to_column_overflow _ H). reflexivity. Qed.

(** The row a [save()] writes when the database takes it. *)
Lemma save_accepted :
  accepts db self (num_products self) ->
  exists c : column_int,
    column_value c = num_products self
    /\ save (self, db)
       = (Returns tt,
          (mk (Some (write_row (pk self) (mk_countdown_row (availability self) c)
                       (countdown_table db)).1)
              (availability self) (num_products self),
           mk_db (boolean_table db)
             (write_row (pk self) (mk_countdown_row (availability self) c)
                (countdown_table db)).2
             (daterange_table db))).
Proof.
  intros [Hfit Huniq].
  destruct (to_column_fits _ Hfit) as (c & Hc & Hv).
  exists c. split; [exact Hv|].
  unfold save, save_row. rewrite Hc.
  destruct (decide _) as [_|Hno].
  - destruct (write_row _ _ _) as [k tb]. reflexivity.
  - exfalso. apply Hno. intros k r Hk Hr. cbn in Hr. eauto.
Qed.

Lemma save_returns :
  (save (self, db)).1 = Returns tt -> accepts db self (num_products self).
Proof.
  unfold save, save_row.
  destruct (to_column _) as [c|] eqn:Hc; [|discriminate].
  destruct (decide _) as [Hok|_]; [|discriminate].
  intros _. split.
  - rewrite <- (to_column_value _ _ Hc). apply column_value_range.
  - intros k r Hk Hr. apply (Hok k r Hk). exact Hr.
Qed.

End Countdown.

(** What a purchase that the database takes leaves behind. *)
Lemma record_purchase_accepted
  (self : CountdownAvailability.t) (db : Database) (q : Z) :
  q <= CountdownAvailability.num_products self ->
  CountdownAvailability.accepts db self (CountdownAvailability.num_products self - q) ->
  let N := CountdownAvailability.num_products self in
  let r := CountdownAvailability.record_purchase q (self, db) in
  r.1 = Returns tt
  /\ CountdownAvailability.num_products r.2.1 = N - q
  /\ CountdownAvailability.availability r.2.1 = CountdownAvailability.availability self
  /\ boolean_table r.2.2 = boolean_table db
  /\ daterange_table r.2.2 = daterange_table db
  /\ exists (k : positive) (row : CountdownAvailability_row),
       CountdownAvailability.pk r.2.1 = Some k
       /\ countdown_row_availability row = CountdownAvailability.availability self
       /\ countdown_row_num_products row = N - q
       /\ countdown_table r.2.2
          = (write_row (CountdownAvailability.pk self) row (countdown_table db)).2
       /\ k = (write_row (CountdownAvailability.pk self) row (countdown_table db)).1.
Proof.
  intros Hle Hacc N r. subst r.
  rewrite record_purchase_eq.
  destruct (Z.gtb_spec q (CountdownAvailability.num_products self)); [lia|].
  fold N. rewrite Z.max_l by lia.
  destruct (save_accepted
              (CountdownAvailability.mk (CountdownAvailability.pk self)
                 (CountdownAvailability.availability self) (N - q)) db)
    as (c & Hv & ->); [exact Hacc|].
  cbn. repeat split.
  eexists _, (mk_countdown_row (CountdownAvailability.availability self) c).
  repeat split. exact Hv.
Qed.

(** Where the purchased count is stored. *)
Lemma record_purchase_stored
  (self : CountdownAvailability.t) (db : Database) (q : Z) :
  q <= CountdownAvailability.num_products self ->
  CountdownAvailability.accepts db self (CountdownAvailability.num_products self - q) ->
  let N := CountdownAvailability.num_products self in
  let r := CountdownAvailability.record_purchase q (self, db) in
  exists k,
    CountdownAvailability.pk r.2.1 = Some k
    /\ CountdownAvailability.stored_num_products k r.2.2 = Some (N - q)
    /\ (forall k0, CountdownAvailability.pk self = Some k0 -> k = k0).
Proof.
  intros Hle Hacc N r.
  destruct (record_purchase_accepted self db q Hle Hacc)
    as (_ & _ & _ & _ & _ & k & row & Hk & _ & Hn & Htb & Hkey).
  fold N r in Hk, Hn, Htb, Hkey. exists k. split; [exact Hk|]. split.
  - unfold CountdownAvailability.stored_num_products.
    rewrite Htb, write_row_rows, <- Hkey, lookup_insert_eq. cbn. f_equal. exact Hn.
  - intros k0 H0. rewrite Hkey, H0. apply write_row_key.
Qed.

(** The guard alone decides whether [QuantityExceedsAvailable] is
    raised. *)
Lemma record_purchase_raises_iff_guard
  (self : CountdownAvailability.t) (db : Database) (q : Z) :
  (CountdownAvailability.record_purchase q (self, db)).1
    = Raises QuantityExceedsAvailable
  <-> q > CountdownAvailability.num_products self.
Proof.
  rewrite record_purchase_eq.
  destruct (Z.gtb_spec q (CountdownAvailability.num_products self)) as [Hgt|Hle];
    cbn [fst snd].
  - split; [lia | reflexivity].
  - split; [|lia]. intros H.
    apply save_raises in H. destruct H as [_ [H|H]]; discriminate.
Qed.

(** C1.  [record_purchase(q)] on a countdown with [num_products = N]
    raises [QuantityExceedsAvailable] exactly when [q > N]; and when it
    raises that, the instance and the database are the ones the call
    started from. *)
Theorem record_purchase_raises_iff
  (self : CountdownAvailability.t) (db : Database) (q : Z) :
  ((CountdownAvailability.record_purchase q (self, db)).1
     = Raises QuantityExceedsAvailable
   <-> q > CountdownAvailability.num_products self)
  /\ ((CountdownAvailability.record_purchase q (self, db)).1
        = Raises QuantityExceedsAvailable ->
      (CountdownAvailability.record_purchase q (self, db)).2 = (self, db)).
Proof.
  rewrite record_purchase_eq.
  destruct (Z.gtb_spec q (CountdownAvailability.num_products self)) as [Hgt|Hle];
    cbn [fst snd].
  - split; [split; [lia | reflexivity] | reflexivity].
  - split; [split; [|lia] | ]; intros H;
      apply save_raises in H; destruct H as [_ [H|H]]; discriminate.
Qed.


(** The saved instance of availability 2 may write any count the column
    holds into [sample_db]. *)
Lemma sample_accepts (n v : Z) :
  integer_min <= v <= integer_max ->
  CountdownAvailability.accepts sample_db
    (CountdownAvailability.mk (Some 1%positive) 2 n) v.
Proof.
  intros Hv. split; [exact Hv|].
  intros k r Hk _. cbn in Hk.
  destruct (decide (k = 1%positive)) as [->|Hne]; [reflexivity|].
  rewrite lookup_singleton_ne in Hk by congruence. discriminate.
Qed.



(** One call keeps a non-negative counter non-negative, whether it
    raises or returns. *)
Lemma record_purchase_nonneg
  (self : CountdownAvailability.t) (db : Database) (q : Z) :
  0 <= CountdownAvailability.num_products self ->
  0 <= CountdownAvailability.num_products
         (CountdownAvailability.record_purchase q (self, db)).2.1.
Proof.
  intros H. rewrite record_purchase_eq.
  destruct (q >? CountdownAvailability.num_products self); cbn [fst snd].
  - exact H.
  - destruct (save_instance
                (CountdownAvailability.mk (CountdownAvailability.pk self)
                   (CountdownAvailability.availability self)
                   (Z.max (CountdownAvailability.num_products self - q) 0)) db)
      as [-> _].
    cbn. lia.
Qed.

(** C3.  Starting from [num_products >= 0], after any sequence of
    [record_purchase] calls, each raising or returning, and after every
    prefix of it, [num_products >= 0]. *)
Theorem num_products_never_negative
  (qs : list Z) (self : CountdownAvailability.t) (db : Database) :
  0 <= CountdownAvailability.num_products self ->
  forall n : nat,
    0 <= CountdownAvailability.num_products
           (CountdownAvailability.record_purchases (take n qs) (self, db)).1.
Proof.
  revert self db.
  induction qs as [|q qs IH]; intros self db H n.
  - rewrite take_nil. exact H.
  - destruct n as [|n]; [exact H|].
    cbn [take CountdownAvailability.record_purchases].
    destruct (CountdownAvailability.record_purchase q (self, db)) as [o [self' db']] eqn:E.
    cbn [snd]. apply IH.
    pose proof (record_purchase_nonneg self db q H) as H'.
    rewrite E in H'. exact H'.
Qed.

Lemma num_products_never_negative_witness :
  0 <= CountdownAvailability.num_products
         (CountdownAvailability.record_purchases
            (take 4 [3; 3; -1; 7])
            (CountdownAvailability.mk None 2 5, empty_db)).1.
Proof.
  apply (num_products_never_negative [3; 3; -1; 7]
           (CountdownAvailability.mk None 2 5) empty_db).
  cbn. lia.
Defined.

(** C4.  [quantity_available(q)] returns [True] exactly when [q <= N],
    never raises, and leaves the instance and the database as they
    were. *)
Theorem quantity_available_iff
  (self : CountdownAvailability.t) (db : Database) (q : Z) :
  exists b : bool,
    CountdownAvailability.quantity_available q (self, db) = (Returns b, (self, db))
    /\ (b = true <-> q <= CountdownAvailability.num_products self).
Proof.
  unfold CountdownAvailability.quantity_available, mbind, M_bind, bind, gets; cbn.
  destruct (Z.leb_spec q (CountdownAvailability.num_products self)).
  - exists true. split; [reflexivity|]. split; [lia | reflexivity].
  - exists false. split; [reflexivity|]. split; [discriminate | lia].
Qed.

(** C9, as the code has it.  With [N >= 0] and [q <= 0] the guard lets
    the call through: it does not raise [QuantityExceedsAvailable] and
    sets [num_products] to [N - q >= N] (a negative quantity adds [|q|],
    quantity 0 leaves the count as it was).  When the database takes the
    row the call returns and the row under the instance's key holds
    [N - q]; when [N - q] does not fit the column the call raises
    [OverflowError] and the database is as before. *)
Theorem record_purchase_nonpositive
  (self : CountdownAvailability.t) (db : Database) (q : Z) :
  0 <= CountdownAvailability.num_products self ->
  q <= 0 ->
  let N := CountdownAvailability.num_products self in
  let r := CountdownAvailability.record_purchase q (self, db) in
  r.1 <> Raises QuantityExceedsAvailable
  /\ CountdownAvailability.num_products r.2.1 = N - q
  /\ N <= CountdownAvailability.num_products r.2.1
  /\ (q < 0 -> CountdownAvailability.num_products r.2.1 = N + Z.abs q
               /\ N < CountdownAvailability.num_products r.2.1)
  /\ (q = 0 -> CountdownAvailability.num_products r.2.1 = N)
  /\ (CountdownAvailability.accepts db self (N - q) ->
      r.1 = Returns tt
      /\ exists k,
           CountdownAvailability.pk r.2.1 = Some k
           /\ CountdownAvailability.stored_num_products k r.2.2 = Some (N - q))
  /\ (integer_max < N - q -> r.1 = Raises OverflowError /\ r.2.2 = db).
Proof.
  intros HN Hq N r.
  assert (Hle : q <= CountdownAvailability.num_products self) by lia.
  assert (Hn : CountdownAvailability.num_products r.2.1 = N - q).
  { subst r. rewrite record_purchase_eq.
    destruct (Z.gtb_spec q (CountdownAvailability.num_products self)); [lia|].
    destruct (save_instance
                (CountdownAvailability.mk (CountdownAvailability.pk self)
                   (CountdownAvailability.availability self)
                   (Z.max (CountdownAvailability.num_products self - q) 0)) db)
      as [-> _].
    cbn. subst N. lia. }
  split.
  { intros H. apply (record_purchase_raises_iff_guard self db q) in H. lia. }
  rewrite Hn. repeat split; try lia.
  - apply (record_purchase_accepted self db q Hle H).
  - destruct (record_purchase_stored self db q Hle H) as (k & Hk & Hst & _).
    exists k. split; assumption.
  - subst r. rewrite record_purchase_eq.
    destruct (Z.gtb_spec q (CountdownAvailability.num_products self)); [lia|].
    rewrite save_overflows; [reflexivity|]. cbn. fold N. lia.
  - subst r. rewrite record_purchase_eq.
    destruct (Z.gtb_spec q (CountdownAvailability.num_products self)); [lia|].
    rewrite save_overflows; [reflexivity|]. cbn. fold N. lia.
Qed.

Lemma record_purchase_nonpositive_witness :
  let self := CountdownAvailability.mk (Some 1%positive) 2 5 in
  let r := CountdownAvailability.record_purchase (-4) (self, sample_db) in
  r.1 <> Raises QuantityExceedsAvailable
  /\ CountdownAvailability.num_products r.2.1 = 5 - -4
  /\ 5 <= CountdownAvailability.num_products r.2.1
  /\ (-4 < 0 -> CountdownAvailability.num_products r.2.1 = 5 + Z.abs (-4)
                /\ 5 < CountdownAvailability.num_products r.2.1)
  /\ (-4 = 0 -> CountdownAvailability.num_products r.2.1 = 5)
  /\ (CountdownAvailability.accepts sample_db self (5 - -4) ->
      r.1 = Returns tt
      /\ exists k,
           CountdownAvailability.pk r.2.1 = Some k
           /\ CountdownAvailability.stored_num_products k r.2.2 = Some (5 - -4))
  /\ (integer_max < 5 - -4 -> r.1 = Raises OverflowError /\ r.2.2 = sample_db).
Proof.
  apply (record_purchase_nonpositive
           (CountdownAvailability.mk (Some 1%positive) 2 5) sample_db (-4));
    cbn; lia.
Defined.

(** C9 as stated fails: with [N = 5] and [q = -2^63] the call does
    raise, from [save()], and the stock on record is not increased. *)
Lemma record_purchase_nonpositive_refuted :
  let self := CountdownAvailability.mk (Some 1%positive) 2 5 in
  let q := -9223372036854775808 in
  let r := CountdownAvailability.record_purchase q (self, sample_db) in
  0 <= CountdownAvailability.num_products self
  /\ q <= 0
  /\ r.1 = Raises OverflowError
  /\ r.1 <> Returns tt
  /\ CountdownAvailability.stored_num_products 1 r.2.2 = Some 5.
Proof.
  vm_compute. repeat split; try reflexivity; discriminate.
Qed.

(** ** DateRangeAvailability *)

Lemma daterange_available_eq
  (today : date) (self : DateRangeAvailability.t) (db : Database) :
  DateRangeAvailability.available today (self, db) =
  (Returns
     (if DateRangeAvailability.set_and (DateRangeAvailability.start_date self)
           (fun s => date_lt today s)
      then false
      else if DateRangeAvailability.set_and (DateRangeAvailability.end_date self)
                (fun e => date_gt today e)
      then false else true),
   (self, db)).
Proof.
  unfold DateRangeAvailability.available, mbind, M_bind, bind, gets; cbn.
  repeat match goal with |- context [if ?c then _ else _] => destruct c end;
    reflexivity.
Qed.

(** C5.  On day [today], [available()] returns [False] when [start_date]
    is set and [today] is before it; otherwise [False] when [end_date] is
    set and [today] is after it; otherwise [True].  The four cases of the
    truth table and the effect of a null bound follow.  The call never
    raises and changes nothing. *)
Theorem daterange_available_cases
  (today : date) (self : DateRangeAvailability.t) (db : Database) :
  let start := DateRangeAvailability.start_date self in
  let stop := DateRangeAvailability.end_date self in
  exists b : bool,
    DateRangeAvailability.available today (self, db) = (Returns b, (self, db))
    /\ (forall s, start = Some s -> before today s -> b = false)
    /\ ((forall s, start = Some s -> ~ before today s) ->
        forall e, stop = Some e -> before e today -> b = false)
    /\ ((forall s, start = Some s -> ~ before today s) ->
        (forall e, stop = Some e -> ~ before e today) -> b = true)
    /\ (start = None -> stop = None -> b = true)
    /\ (forall s, start = Some s -> stop = None -> before today s -> b = false)
    /\ (forall e, start = None -> stop = Some e -> before e today -> b = false)
    /\ (forall s e, start = Some s -> stop = Some e ->
          ~ before today s -> ~ before e today -> b = true)
    /\ (start = None -> (b = false <-> exists e, stop = Some e /\ before e today))
    /\ (stop = None -> (b = false <-> exists s, start = Some s /\ before today s)).
Proof.
  intros start stop. eexists. split; [apply daterange_available_eq|].
  subst start stop.
  destruct (DateRangeAvailability.start_date self) as [s|];
    destruct (DateRangeAvailability.end_date self) as [e|]; cbn;
    try (pose proof (date_lt_before today s) as Hs; destruct (date_lt today s));
    try (pose proof (date_gt_before today e) as He; destruct (date_gt today e));
    repeat split; intros;
    repeat match goal with
           | H : Some _ = Some _ |- _ => injection H as <-
           | H : exists _, _ /\ _ |- _ => destruct H as (? & ? & ?)
           | H : forall x, Some ?y = Some x -> _ |- _ => specialize (H y eq_refl)
           end;
    try discriminate; try reflexivity; try tauto;
    try (exfalso; intuition congruence);
    try (eexists; split; [reflexivity | tauto]).
Qed.

(** C10.  With both bounds set and [end_date] before [start_date],
    [available()] returns [False] on every day. *)
Theorem empty_window_never_available
  (self : DateRangeAvailability.t) (db : Database) (s e : date) :
  DateRangeAvailability.start_date self = Some s ->
  DateRangeAvailability.end_date self = Some e ->
  before e s ->
  forall today : date,
    DateRangeAvailability.available today (self, db) = (Returns false, (self, db)).
Proof.
  intros Hs He Hes today.
  rewrite daterange_available_eq, Hs, He. cbn.
  destruct (date_lt today s) eqn:E1; [reflexivity|].
  destruct (date_gt today e) eqn:E2; [reflexivity|].
  exfalso. destruct (before_cover s e today Hes) as [H|H].
  - apply date_lt_before in H. congruence.
  - apply date_gt_before in H. congruence.
Qed.

Lemma empty_window_never_available_witness :
  DateRangeAvailability.available (mk_date 2024 6 15)
    (DateRangeAvailability.mk (Some 1%positive)
       (Some (mk_date 2024 12 31)) (Some (mk_date 2024 1 1)), sample_db)
  = (Returns false,
     (DateRangeAvailability.mk (Some 1%positive)
        (Some (mk_date 2024 12 31)) (Some (mk_date 2024 1 1)), sample_db)).
Proof.
  apply (empty_window_never_available
           (DateRangeAvailability.mk (Some 1%positive)
              (Some (mk_date 2024 12 31)) (Some (mk_date 2024 1 1)))
           sample_db (mk_date 2024 12 31) (mk_date 2024 1 1));
    [reflexivity | reflexivity | unfold before; cbn; lia].
Defined.

(** ** BooleanAvailability *)

(** C6.  [available()] returns the stored flag; [quantity_available(q)]
    returns [True] for every [q]; [record_purchase(q)] returns without
    raising; none of the three changes the instance (so not the flag) or
    the database. *)
Theorem boolean_availability_spec
  (self : BooleanAvailability.t) (db : Database) (q : Z) :
  BooleanAvailability.available (self, db)
    = (Returns (BooleanAvailability.is_available self), (self, db))
  /\ BooleanAvailability.quantity_available q (self, db) = (Returns true, (self, db))
  /\ BooleanAvailability.record_purchase q (self, db) = (Returns tt, (self, db)).
Proof. repeat split. Qed.


(** ** Availability: the facade *)

Section Facade.

Variable gf : string -> outcome model_class.
Variables (self : Availability.t) (today : date) (q : Z).

Local Abbreviation the_code := (AvailabilityType.code (Availability.availability_type self)).

(** The query only reads. *)
Lemma helper_reads_only (db : Database) :
  (Availability.helper gf self db).2 = db.
Proof.
  unfold Availability.helper, mbind, M_bind, bind, lift_outcome.
  destruct (gf the_code) as [cls|e]; [|reflexivity].
  destruct cls; cbn; unfold mbind, M_bind, bind, lift_outcome, gets, raise; cbn;
    try reflexivity;
    match goal with |- context [get_one ?c ?l] => destruct (get_one c l) end;
    reflexivity.
Qed.

(** Both methods hand the call to the helper the query found. *)
Lemma facade_delegates (db : Database) (h : helper_object) :
  (Availability.helper gf self db).1 = Returns h ->
  Availability.available gf today self db = helper_available today h db
  /\ Availability.record_purchase gf self q db = helper_record_purchase h q db.
Proof.
  intros H. pose proof (helper_reads_only db) as H2.
  unfold Availability.available, Availability.record_purchase.
  unfold mbind, M_bind, bind.
  destruct (Availability.helper gf self db) as [o db']. cbn in H, H2.
  subst o db'. split; reflexivity.
Qed.

(** An exception of the query is the exception of both methods, and the
    database is as it was. *)
Lemma facade_propagates_lookup (db : Database) (e : exn) :
  (Availability.helper gf self db).1 = Raises e ->
  Availability.available gf today self db = (Raises e, db)
  /\ Availability.record_purchase gf self q db = (Raises e, db).
Proof.
  intros H. pose proof (helper_reads_only db) as H2.
  unfold Availability.available, Availability.record_purchase.
  unfold mbind, M_bind, bind.
  destruct (Availability.helper gf self db) as [o db']. cbn in H, H2.
  subst o db'. split; reflexivity.
Qed.

(** No row of a table refers to the availability: the selection is empty. *)
Lemma select_by_none {R} (col : R -> positive) (a : positive) (tb : table R) :
  (forall k r, rows tb !! k = Some r -> col r <> a) ->
  select_by col a tb = [].
Proof.
  intros H. unfold select_by.
  apply map_to_list_empty_iff, map_empty. intros k.
  apply map_lookup_filter_None_2. right. intros r Hk. cbn. apply H with k. exact Hk.
Qed.

(** A countdown type without a countdown row for this availability:
    [DoesNotExist]. *)
Lemma countdown_row_missing (db : Database) :
  gf the_code = Returns cls_CountdownAvailability ->
  (forall k r, rows (countdown_table db) !! k = Some r ->
     countdown_row_availability r <> Availability.pk self) ->
  (Availability.helper gf self db).1 = Raises (DoesNotExist cls_CountdownAvailability).
Proof.
  intros Hgf Hno.
  unfold Availability.helper, mbind, M_bind, bind, lift_outcome.
  rewrite Hgf. cbn. unfold mbind, M_bind, bind, lift_outcome, gets. cbn.
  rewrite (select_by_none _ _ _ Hno). reflexivity.
Qed.

(** A boolean type without a boolean row for this availability:
    [DoesNotExist]. *)
Lemma boolean_row_missing (db : Database) :
  gf the_code = Returns cls_BooleanAvailability ->
  (forall k r, rows (boolean_table db) !! k = Some r ->
     boolean_row_availability r <> Availability.pk self) ->
  (Availability.helper gf self db).1 = Raises (DoesNotExist cls_BooleanAvailability).
Proof.
  intros Hgf Hno.
  unfold Availability.helper, mbind, M_bind, bind, lift_outcome.
  rewrite Hgf. cbn. unfold mbind, M_bind, bind, lift_outcome, gets. cbn.
  rewrite (select_by_none _ _ _ Hno). reflexivity.
Qed.

(** [QuantityExceedsAvailable] of the countdown helper comes out of the
    facade as it is, with the database untouched. *)
Lemma facade_propagates_exceeds (db : Database) (c : CountdownAvailability.t) :
  (Availability.helper gf self db).1 = Returns (CountdownHelper c) ->
  q > CountdownAvailability.num_products c ->
  Availability.record_purchase gf self q db = (Raises QuantityExceedsAvailable, db).
Proof.
  intros Hh Hq.
  destruct (facade_delegates db _ Hh) as [_ ->].
  unfold helper_record_purchase, with_object.
  rewrite record_purchase_eq.
  destruct (Z.gtb_spec q (CountdownAvailability.num_products c)); [reflexivity | lia].
Qed.

End Facade.

(** C7, on a date-range availability.  When the type's code resolves to
    [DateRangeAvailability], the lookup [objects.get(availability=self)]
    names a field that model does not have: [available()] and
    [record_purchase()] both end in [FieldError], whatever rows the
    database holds, so the date-range helper's [available()] is never
    reached and the failure is not the missing-row [DoesNotExist]. *)
Theorem daterange_helper_unreachable
  (gf : string -> outcome model_class) (self : Availability.t) :
  gf (AvailabilityType.code (Availability.availability_type self))
    = Returns cls_DateRangeAvailability ->
  forall (today : date) (q : Z) (db : Database),
    Availability.available gf today self db
      = (Raises (FieldError cls_DateRangeAvailability "availability"), db)
    /\ Availability.record_purchase gf self q db
      = (Raises (FieldError cls_DateRangeAvailability "availability"), db).
Proof.
  intros Hgf today q db.
  apply facade_propagates_lookup.
  unfold Availability.helper, mbind, M_bind, bind, lift_outcome.
  rewrite Hgf. reflexivity.
Qed.

Lemma daterange_helper_unreachable_witness :
  Availability.available sample_gf (mk_date 2024 6 15)
    (sample_availability 3 "daterange") sample_db
    = (Raises (FieldError cls_DateRangeAvailability "availability"), sample_db)
  /\ Availability.record_purchase sample_gf (sample_availability 3 "daterange") 1 sample_db
    = (Raises (FieldError cls_DateRangeAvailability "availability"), sample_db).
Proof.
  apply (daterange_helper_unreachable sample_gf (sample_availability 3 "daterange")).
  reflexivity.
Defined.


(** ** More on CountdownAvailability *)

Lemma countdown_available_eq (self : CountdownAvailability.t) (db : Database) :
  CountdownAvailability.available (self, db)
  = (Returns (if CountdownAvailability.num_products self >? 0 then true else false),
     (self, db)).
Proof. reflexivity. Qed.

Lemma countdown_quantity_available_eq
  (self : CountdownAvailability.t) (db : Database) (q : Z) :
  CountdownAvailability.quantity_available q (self, db)
  = (Returns (if q <=? CountdownAvailability.num_products self then true else false),
     (self, db)).
Proof. reflexivity. Qed.

(** X1.  [available()] of a countdown returns [True] exactly when
    [num_products > 0]; zero and negative counts are unavailable; the
    call changes nothing. *)
Theorem countdown_available_iff
  (self : CountdownAvailability.t) (db : Database) :
  exists b : bool,
    CountdownAvailability.available (self, db) = (Returns b, (self, db))
    /\ (b = true <-> CountdownAvailability.num_products self > 0)
    /\ (b = false <-> CountdownAvailability.num_products self <= 0).
Proof.
  rewrite countdown_available_eq. eexists. split; [reflexivity|].
  destruct (Z.gtb_spec (CountdownAvailability.num_products self) 0);
    repeat split; intros; try discriminate; try reflexivity; lia.
Qed.

(** X2.  [available()] and [quantity_available()] with its default
    quantity 1 give the same answer on every countdown. *)
Theorem countdown_available_is_one_available
  (self : CountdownAvailability.t) (db : Database) :
  CountdownAvailability.available (self, db)
  = CountdownAvailability.quantity_available 1 (self, db).
Proof.
  rewrite countdown_available_eq, countdown_quantity_available_eq.
  destruct (Z.gtb_spec (CountdownAvailability.num_products self) 0);
    destruct (Z.leb_spec 1 (CountdownAvailability.num_products self));
    try reflexivity; lia.
Qed.

(** X3.  [quantity_available(q)] predicts the guard of
    [record_purchase(q)]: it answers [False] exactly when the purchase
    raises [QuantityExceedsAvailable]; when it answers [True] the
    purchase gets past the guard, and it returns if the database takes
    the row. *)
Theorem quantity_available_predicts_purchase
  (self : CountdownAvailability.t) (db : Database) (q : Z) :
  ((CountdownAvailability.quantity_available q (self, db)).1 = Returns false
   <-> (CountdownAvailability.record_purchase q (self, db)).1
       = Raises QuantityExceedsAvailable)
  /\ ((CountdownAvailability.quantity_available q (self, db)).1 = Returns true
      <-> (CountdownAvailability.record_purchase q (self, db)).1
          <> Raises QuantityExceedsAvailable)
  /\ (CountdownAvailability.accepts db self
        (CountdownAvailability.num_products self - q) ->
      ((CountdownAvailability.quantity_available q (self, db)).1 = Returns true
       <-> (CountdownAvailability.record_purchase q (self, db)).1 = Returns tt)).
Proof.
  pose proof (record_purchase_raises_iff_guard self db q) as Hg.
  rewrite countdown_quantity_available_eq. cbn [fst].
  destruct (Z.leb_spec q (CountdownAvailability.num_products self)) as [Hle|Hgt].
  - split; [|split].
    + split; [discriminate|]. intros H. apply Hg in H. lia.
    + split; [|reflexivity]. intros _ H. apply Hg in H. lia.
    + intros Hacc. split; [|reflexivity]. intros _.
      apply (record_purchase_accepted self db q Hle Hacc).
  - assert (Hr : (CountdownAvailability.record_purchase q (self, db)).1
                 = Raises QuantityExceedsAvailable) by (apply Hg; lia).
    rewrite Hr. split; [|split].
    + split; reflexivity.
    + split; [discriminate|]. intros H. contradiction.
    + intros _. split; discriminate.
Qed.

(** The state a purchase leaves when the database takes the row. *)
Lemma record_purchase_accepted_eq
  (self : CountdownAvailability.t) (db : Database) (q : Z) :
  q <= CountdownAvailability.num_products self ->
  CountdownAvailability.accepts db self (CountdownAvailability.num_products self - q) ->
  exists c : column_int,
    column_value c = CountdownAvailability.num_products self - q
    /\ CountdownAvailability.record_purchase q (self, db)
       = (Returns tt,
          (CountdownAvailability.mk
             (Some (write_row (CountdownAvailability.pk self)
                      (mk_countdown_row (CountdownAvailability.availability self) c)
                      (countdown_table db)).1)
             (CountdownAvailability.availability self)
             (CountdownAvailability.num_products self - q),
           mk_db (boolean_table db)
             (write_row (CountdownAvailability.pk self)
                (mk_countdown_row (CountdownAvailability.availability self) c)
                (countdown_table db)).2
             (daterange_table db))).
Proof.
  intros Hle Hacc. rewrite record_purchase_eq.
  destruct (Z.gtb_spec q (CountdownAvailability.num_products self)); [lia|].
  rewrite Z.max_l by lia.
  destruct (save_accepted
              (CountdownAvailability.mk (CountdownAvailability.pk self)
                 (CountdownAvailability.availability self)
                 (CountdownAvailability.num_products self - q)) db)
    as (c & Hv & ->); [exact Hacc|].
  exists c. split; [exact Hv | reflexivity].
Qed.

(** Saving again under the key the first save gave is one save. *)
Lemma write_row_twice {R} (pk : option positive) (r1 r2 : R) (tb : table R) :
  write_row (Some (write_row pk r1 tb).1) r2 (write_row pk r1 tb).2
  = write_row pk r2 tb.
Proof.
  unfold write_row. destruct pk as [k|].
  - destruct (rows tb !! k) eqn:E; cbn; rewrite lookup_insert_eq, insert_insert_eq;
      reflexivity.
  - cbn. rewrite lookup_insert_eq, insert_insert_eq. reflexivity.
Qed.

(** After its own write the instance may write again. *)
Lemma accepts_after_write
  (self : CountdownAvailability.t) (db : Database) (c : column_int) (n v : Z) :
  CountdownAvailability.accepts db self v ->
  let w := write_row (CountdownAvailability.pk self)
             (mk_countdown_row (CountdownAvailability.availability self) c)
             (countdown_table db) in
  CountdownAvailability.accepts
    (mk_db (boolean_table db) w.2 (daterange_table db))
    (CountdownAvailability.mk (Some w.1) (CountdownAvailability.availability self) n)
    v.
Proof.
  intros [Hfit Huniq] w. split; [exact Hfit|]. cbn.
  intros k r Hk Hr. subst w. rewrite write_row_rows in Hk.
  destruct (decide (k = (write_row (CountdownAvailability.pk self)
                           (mk_countdown_row (CountdownAvailability.availability self) c)
                           (countdown_table db)).1)) as [->|Hne]; [reflexivity|].
  rewrite lookup_insert_ne in Hk by congruence.
  specialize (Huniq k r Hk Hr). exfalso. apply Hne.
  rewrite Huniq. symmetry. apply write_row_key.
Qed.

(** X4.  Two purchases that both pass the guard and that the database
    both takes leave exactly the state (instance and database) that one
    purchase of the summed quantity leaves. *)
Theorem record_purchase_twice
  (self : CountdownAvailability.t) (db : Database) (a b : Z) :
  a <= CountdownAvailability.num_products self ->
  b <= CountdownAvailability.num_products self - a ->
  CountdownAvailability.accepts db self (CountdownAvailability.num_products self - a) ->
  CountdownAvailability.accepts db self
    (CountdownAvailability.num_products self - a - b) ->
  CountdownAvailability.record_purchases [a; b] (self, db)
  = CountdownAvailability.record_purchases [a + b] (self, db).
Proof.
  intros Ha Hb Hacc1 Hacc2. cbn [CountdownAvailability.record_purchases].
  destruct (record_purchase_accepted_eq self db a Ha Hacc1) as (c1 & Hc1 & ->).
  cbn [snd].
  destruct (record_purchase_accepted_eq self db (a + b)) as (c3 & Hc3 & ->);
    [lia | replace (CountdownAvailability.num_products self - (a + b))
             with (CountdownAvailability.num_products self - a - b) by lia;
           exact Hacc2 |].
  match goal with
  | |- context [CountdownAvailability.record_purchase b (?s1, ?d1)] =>
      destruct (record_purchase_accepted_eq s1 d1 b) as (c2 & Hc2 & ->)
  end.
  - cbn. lia.
  - cbn [CountdownAvailability.num_products].
    apply (accepts_after_write self db c1 _ _ Hacc2).
  - cbn in Hc2. cbn [snd CountdownAvailability.pk CountdownAvailability.availability
                       CountdownAvailability.num_products boolean_table
                       countdown_table daterange_table].
    assert (c2 = c3) as -> by (apply column_int_eq; lia).
    rewrite write_row_twice.
    replace (CountdownAvailability.num_products self - (a + b))
      with (CountdownAvailability.num_products self - a - b) by lia.
    reflexivity.
Qed.

Lemma record_purchase_twice_witness :
  CountdownAvailability.record_purchases [2; 3]
    (CountdownAvailability.mk (Some 1%positive) 2 5, sample_db)
  = CountdownAvailability.record_purchases [2 + 3]
      (CountdownAvailability.mk (Some 1%positive) 2 5, sample_db).
Proof.
  apply (record_purchase_twice
           (CountdownAvailability.mk (Some 1%positive) 2 5) sample_db 2 3);
    try (cbn; lia);
    apply sample_accepts; unfold integer_min, integer_max; cbn; lia.
Defined.

(** The count after one call: unchanged when the guard raises, [N - q]
    once the guard is passed, whether the save then succeeds or not. *)
Lemma record_purchase_count
  (self : CountdownAvailability.t) (db : Database) (q : Z) :
  CountdownAvailability.num_products
    (CountdownAvailability.record_purchase q (self, db)).2.1
  = if q >? CountdownAvailability.num_products self
    then CountdownAvailability.num_products self
    else CountdownAvailability.num_products self - q.
Proof.
  rewrite record_purchase_eq.
  destruct (Z.gtb_spec q (CountdownAvailability.num_products self)); [reflexivity|].
  destruct (save_instance
              (CountdownAvailability.mk (CountdownAvailability.pk self)
                 (CountdownAvailability.availability self)
                 (Z.max (CountdownAvailability.num_products self - q) 0)) db)
    as [-> _].
  cbn. lia.
Qed.

(** One call with a quantity that is not negative does not raise the
    count. *)
Lemma record_purchase_no_increase
  (self : CountdownAvailability.t) (db : Database) (q : Z) :
  0 <= q ->
  CountdownAvailability.num_products
    (CountdownAvailability.record_purchase q (self, db)).2.1
  <= CountdownAvailability.num_products self.
Proof.
  intros Hq. rewrite record_purchase_count.
  destruct (q >? CountdownAvailability.num_products self); lia.
Qed.

(** X5.  A sequence of purchases whose quantities are all at least 0
    never raises [num_products], whichever of the calls raise. *)
Theorem purchases_never_restock
  (qs : list Z) (self : CountdownAvailability.t) (db : Database) :
  Forall (fun q => 0 <= q) qs ->
  CountdownAvailability.num_products
    (CountdownAvailability.record_purchases qs (self, db)).1
  <= CountdownAvailability.num_products self.
Proof.
  intros H. revert self db.
  induction H as [|q qs Hq _ IH]; intros self db; cbn; [lia|].
  pose proof (record_purchase_no_increase self db q Hq) as H1.
  destruct (CountdownAvailability.record_purchase q (self, db)) as [o [self' db']].
  cbn in *. specialize (IH self' db'). lia.
Qed.

Lemma purchases_never_restock_witness :
  CountdownAvailability.num_products
    (CountdownAvailability.record_purchases [3; 0; 4; 1]
       (CountdownAvailability.mk None 2 5, empty_db)).1
  <= 5.
Proof.
  apply (purchases_never_restock [3; 0; 4; 1]
           (CountdownAvailability.mk None 2 5) empty_db).
  repeat constructor; lia.
Defined.

(** What one call debits: nothing when the guard raises, [q] otherwise. *)
Lemma record_purchase_debit
  (self : CountdownAvailability.t) (db : Database) (q : Z) :
  match (CountdownAvailability.record_purchase q (self, db)).1 with
  | Raises QuantityExceedsAvailable => 0
  | _ => q
  end
  = if q >? CountdownAvailability.num_products self then 0 else q.
Proof.
  pose proof (record_purchase_raises_iff_guard self db q) as Hg.
  destruct (Z.gtb_spec q (CountdownAvailability.num_products self)) as [Hgt|Hle].
  - assert (H : (CountdownAvailability.record_purchase q (self, db)).1
                = Raises QuantityExceedsAvailable) by (apply Hg; lia).
    rewrite H. reflexivity.
  - destruct (CountdownAvailability.record_purchase q (self, db)).1 as [u|e];
      [reflexivity|].
    destruct e; try reflexivity.
    exfalso. assert (q > CountdownAvailability.num_products self) by (apply Hg; reflexivity).
    lia.
Qed.

(** X6.  Stock accounting: after any sequence of calls the count is the
    initial count minus the total of the quantities that got past the
    guard (their call returned, or raised in [save()] after the
    assignment); from a count that is not negative that total never
    exceeds the initial count; and with quantities that are not negative
    the total of the calls that returned is no larger, so never exceeds
    the initial count either. *)
Theorem purchases_account_for_stock
  (qs : list Z) (self : CountdownAvailability.t) (db : Database) :
  CountdownAvailability.num_products
    (CountdownAvailability.record_purchases qs (self, db)).1
  = CountdownAvailability.num_products self
    - CountdownAvailability.debited_total qs (self, db)
  /\ (0 <= CountdownAvailability.num_products self ->
      CountdownAvailability.debited_total qs (self, db)
      <= CountdownAvailability.num_products self)
  /\ (Forall (fun q => 0 <= q) qs ->
      CountdownAvailability.accepted_total qs (self, db)
      <= CountdownAvailability.debited_total qs (self, db))
  /\ (0 <= CountdownAvailability.num_products self ->
      Forall (fun q => 0 <= q) qs ->
      CountdownAvailability.accepted_total qs (self, db)
      <= CountdownAvailability.num_products self).
Proof.
  assert (Hacc : forall qs self db,
    CountdownAvailability.num_products
      (CountdownAvailability.record_purchases qs (self, db)).1
    = CountdownAvailability.num_products self
      - CountdownAvailability.debited_total qs (self, db)).
  { clear. induction qs as [|q qs IH]; intros self db; cbn; [lia|].
    pose proof (record_purchase_count self db q) as Hn.
    rewrite record_purchase_debit.
    destruct (CountdownAvailability.record_purchase q (self, db)) as [o [self' db']].
    cbn [fst snd] in *. rewrite IH, Hn.
    destruct (q >? CountdownAvailability.num_products self); lia. }
  assert (Hnn : forall qs self db,
    0 <= CountdownAvailability.num_products self ->
    0 <= CountdownAvailability.num_products
           (CountdownAvailability.record_purchases qs (self, db)).1).
  { clear. induction qs as [|q qs IH]; intros self db HN; cbn; [exact HN|].
    pose proof (record_purchase_nonneg self db q HN) as H'.
    destruct (CountdownAvailability.record_purchase q (self, db)) as [o [self' db']].
    apply IH. exact H'. }
  assert (Hle : forall qs self db,
    Forall (fun q => 0 <= q) qs ->
    CountdownAvailability.accepted_total qs (self, db)
    <= CountdownAvailability.debited_total qs (self, db)).
  { clear. intros qs self db H. revert self db.
    induction H as [|q qs Hq _ IH]; intros self db; cbn; [lia|].
    pose proof (record_purchase_debit self db q) as Hd.
    pose proof (record_purchase_raises_iff_guard self db q) as Hg.
    destruct (CountdownAvailability.record_purchase q (self, db)) as [o [self' db']].
    cbn [fst snd] in *. specialize (IH self' db').
    destruct o as [u|e].
    - lia.
    - rewrite Hd. destruct (q >? CountdownAvailability.num_products self); lia. }
  split; [apply Hacc|].
  pose proof (Hacc qs self db) as H1.
  split; [|split].
  - intros HN. pose proof (Hnn qs self db HN). lia.
  - apply Hle.
  - intros HN Hqs. pose proof (Hnn qs self db HN). pose proof (Hle qs self db Hqs). lia.
Qed.

(** X7.  A purchase writes one row at most, the instance's own: the
    boolean and date-range tables and every countdown row under another
    key are as before; a first save lands on a key that held no row; a
    saved instance keeps its key; the key sequence never moves back and
    does not move when the row was there; the instance keeps its
    [availability]; and a call that raises has written nothing. *)
Theorem record_purchase_frame
  (self : CountdownAvailability.t) (db : Database) (q : Z) :
  let r := CountdownAvailability.record_purchase q (self, db) in
  boolean_table r.2.2 = boolean_table db
  /\ daterange_table r.2.2 = daterange_table db
  /\ CountdownAvailability.availability r.2.1 = CountdownAvailability.availability self
  /\ (forall k, CountdownAvailability.pk r.2.1 <> Some k ->
        rows (countdown_table r.2.2) !! k = rows (countdown_table db) !! k)
  /\ (CountdownAvailability.pk self = None ->
      forall k, CountdownAvailability.pk r.2.1 = Some k ->
        rows (countdown_table db) !! k = None)
  /\ (forall k, CountdownAvailability.pk self = Some k ->
        CountdownAvailability.pk r.2.1 = Some k)
  /\ (forall k, CountdownAvailability.pk self = Some k ->
        is_Some (rows (countdown_table db) !! k) ->
        next_pk (countdown_table r.2.2) = next_pk (countdown_table db))
  /\ (next_pk (countdown_table db) <= next_pk (countdown_table r.2.2))%positive
  /\ (forall e, r.1 = Raises e -> r.2.2 = db).
Proof.
  cbn zeta. rewrite record_purchase_eq.
  destruct (q >? CountdownAvailability.num_products self); cbn [fst snd].
  { repeat match goal with |- _ /\ _ => split end;
      intros; try reflexivity; try congruence; lia. }
  unfold CountdownAvailability.save, save_row. cbn.
  destruct (to_column _) as [c|]; cbn;
    [|repeat match goal with |- _ /\ _ => split end;
      intros; try reflexivity; try congruence; lia].
  destruct (decide _) as [_|_]; cbn;
    [|repeat match goal with |- _ /\ _ => split end;
      intros; try reflexivity; try congruence; lia].
  set (row := mk_countdown_row (CountdownAvailability.availability self) c).
  pose proof (write_row_rows (CountdownAvailability.pk self) row (countdown_table db))
    as Hrows.
  pose proof (write_row_next_pk (CountdownAvailability.pk self) row (countdown_table db))
    as (Hn1 & Hn2 & _).
  destruct (write_row (CountdownAvailability.pk self) row (countdown_table db))
    as [k0 tb] eqn:Hw.
  cbn in *.
  split; [reflexivity|]. split; [reflexivity|]. split; [reflexivity|].
  split; [|split; [|split; [|split; [|split]]]].
  - intros k Hk. rewrite Hrows. apply lookup_insert_ne. congruence.
  - intros Hnone k [= <-].
    pose proof (write_row_insert_free row (countdown_table db)) as Hfree.
    rewrite Hnone in Hw. rewrite Hw in Hfree. exact Hfree.
  - intros k Hk. f_equal.
    pose proof (write_row_key k row (countdown_table db)) as Hkey.
    rewrite Hk in Hw. rewrite Hw in Hkey. exact Hkey.
  - exact Hn2.
  - exact Hn1.
  - discriminate.
Qed.

(** ** More on the facade *)

(** The one row that refers to the availability is what the query
    selects. *)
Lemma select_by_sole {R} (col : R -> positive) (a : positive) (tb : table R)
  (k : positive) (r : R) :
  sole_row col a tb k r -> select_by col a tb = [(k, r)].
Proof.
  intros (Hk & Hc & Huniq). unfold select_by.
  replace (filter (fun kr : positive * R => col kr.2 = a) (rows tb))
    with ({[ k := r ]} : gmap positive R); [apply map_to_list_singleton|].
  apply map_eq. intros i. symmetry.
  destruct (decide (i = k)) as [->|Hne].
  - rewrite lookup_singleton_eq. apply map_lookup_filter_Some. split; assumption.
  - rewrite lookup_singleton_ne by congruence.
    apply map_lookup_filter_None_2.
    destruct (rows tb !! i) as [r'|] eqn:E; [right | left; reflexivity].
    intros x [= <-] Hx. cbn in Hx. apply Hne. apply (Huniq i r'); assumption.
Qed.

(** Whatever the query returns is the one row of the table that refers
    to the availability. *)
Lemma get_one_selected {R} (c : model_class) (col : R -> positive) (a : positive)
  (tb : table R) (kr : positive * R) :
  get_one c (select_by col a tb) = Returns kr ->
  sole_row col a tb kr.1 kr.2.
Proof.
  unfold get_one. intros H.
  assert (Hsel : select_by col a tb = [kr]).
  { destruct (select_by col a tb) as [|x [|y l]]; try discriminate.
    injection H as <-. reflexivity. }
  assert (Hin : forall k r, rows tb !! k = Some r /\ col r = a <-> (k, r) = kr).
  { intros k r.
    assert (Hmem : (k, r) ∈ select_by col a tb <-> rows tb !! k = Some r /\ col r = a).
    { unfold select_by. rewrite elem_of_map_to_list, map_lookup_filter_Some.
      reflexivity. }
    rewrite Hsel in Hmem. rewrite <- Hmem. apply list_elem_of_singleton. }
  destruct kr as [k r]. cbn.
  destruct (proj2 (Hin k r) eq_refl) as [Hk Hc].
  split; [exact Hk|]. split; [exact Hc|].
  intros k' r' Hk' Hc'.
  assert (E : (k', r') = (k, r)) by (apply Hin; auto).
  congruence.
Qed.

Lemma sole_row_update {R} (col : R -> positive) (a : positive) (tb : table R)
  (k : positive) (r r' : R) (n : positive) :
  sole_row col a tb k r -> col r' = a ->
  sole_row col a (mk_table (<[k := r']> (rows tb)) n) k r'.
Proof.
  intros (Hk & Hc & Huniq) Hc'. unfold sole_row. cbn.
  split; [apply lookup_insert_eq|]. split; [exact Hc'|].
  intros k' x Hk' Hx.
  destruct (decide (k' = k)) as [->|Hne]; [reflexivity|].
  rewrite lookup_insert_ne in Hk' by congruence.
  apply (Huniq k' x); assumption.
Qed.

(** The helper's purchase on an instance read from the one row of its
    availability: the guard, then the column, then an UPDATE of that
    row. *)
Lemma helper_record_purchase_countdown (db : Database) (k : positive)
  (r : CountdownAvailability_row) (q : Z) :
  sole_row countdown_row_availability (countdown_row_availability r)
    (countdown_table db) k r ->
  helper_record_purchase (CountdownHelper (CountdownAvailability.of_row (k, r))) q db
  = if q >? countdown_row_num_products r
    then (Raises QuantityExceedsAvailable, db)
    else match to_column (Z.max (countdown_row_num_products r - q) 0) with
         | None => (Raises OverflowError, db)
         | Some c =>
             (Returns tt,
              mk_db (boolean_table db)
                (mk_table
                   (<[k := mk_countdown_row (countdown_row_availability r) c]>
                      (rows (countdown_table db)))
                   (next_pk (countdown_table db)))
                (daterange_table db))
         end.
Proof.
  intros (Hk & _ & Huniq).
  unfold helper_record_purchase, with_object.
  rewrite record_purchase_eq. cbn.
  destruct (q >? countdown_row_num_products r); [reflexivity|].
  unfold CountdownAvailability.save, save_row. cbn.
  destruct (to_column _) as [c|]; [|reflexivity].
  destruct (decide _) as [_|Hno].
  - unfold write_row. rewrite Hk. reflexivity.
  - exfalso. apply Hno. intros k' r' Hk' Hr'. cbn in Hr'.
    f_equal. symmetry. apply (Huniq k' r'); assumption.
Qed.

Section FacadeRows.

Variable gf : string -> outcome model_class.
Variable self : Availability.t.

Local Abbreviation the_code := (AvailabilityType.code (Availability.availability_type self)).

Lemma helper_countdown_sole (db : Database) (k : positive) (r : CountdownAvailability_row) :
  gf the_code = Returns cls_CountdownAvailability ->
  sole_row countdown_row_availability (Availability.pk self) (countdown_table db) k r ->
  Availability.helper gf self db
  = (Returns (CountdownHelper (CountdownAvailability.of_row (k, r))), db).
Proof.
  intros Hgf Hsole.
  unfold Availability.helper, mbind, M_bind, bind, lift_outcome.
  rewrite Hgf. cbn. unfold mbind, M_bind, bind, lift_outcome, gets. cbn.
  rewrite (select_by_sole _ _ _ _ _ Hsole). reflexivity.
Qed.

Lemma helper_boolean_sole (db : Database) (k : positive) (r : BooleanAvailability_row) :
  gf the_code = Returns cls_BooleanAvailability ->
  sole_row boolean_row_availability (Availability.pk self) (boolean_table db) k r ->
  Availability.helper gf self db
  = (Returns (BooleanHelper (BooleanAvailability.of_row (k, r))), db).
Proof.
  intros Hgf Hsole.
  unfold Availability.helper, mbind, M_bind, bind, lift_outcome.
  rewrite Hgf. cbn. unfold mbind, M_bind, bind, lift_outcome, gets. cbn.
  rewrite (select_by_sole _ _ _ _ _ Hsole). reflexivity.
Qed.

(** A countdown helper that the query returned was read from the one
    row that refers to the availability. *)
Lemma helper_countdown_row (db : Database) (c : CountdownAvailability.t) :
  (Availability.helper gf self db).1 = Returns (CountdownHelper c) ->
  exists k r,
    sole_row countdown_row_availability (Availability.pk self) (countdown_table db) k r
    /\ c = CountdownAvailability.of_row (k, r).
Proof.
  unfold Availability.helper, mbind, M_bind, bind, lift_outcome.
  destruct (gf the_code) as [cls|e]; [|discriminate].
  destruct cls; cbn; unfold mbind, M_bind, bind, lift_outcome, gets, raise; cbn;
    try discriminate.
  - destruct (get_one _ _); discriminate.
  - destruct (get_one _ _) as [[k r]|e] eqn:E; [|discriminate].
    cbn. intros [= <-].
    apply get_one_selected in E. exists k, r. auto.
Qed.

End FacadeRows.

(** X8.  [Availability.available()] never writes: whatever the registry
    resolves, whatever the tables hold, and whether it returns or raises,
    the database afterwards is the database before. *)
Theorem facade_available_reads_only
  (gf : string -> outcome model_class) (today : date)
  (self : Availability.t) (db : Database) :
  (Availability.available gf today self db).2 = db.
Proof.
  pose proof (helper_reads_only gf self db) as H.
  unfold Availability.available, mbind, M_bind, bind.
  destruct (Availability.helper gf self db) as [[h|e] db']; cbn in H; subst db';
    [|reflexivity].
  destruct h; unfold helper_available, with_object.
  - reflexivity.
  - reflexivity.
  - rewrite daterange_available_eq. reflexivity.
Qed.

(** X9.  A facade purchase that raises, for whatever reason, has written
    nothing; and what it raises is [QuantityExceedsAvailable], or
    [OverflowError] from the save of a count that a negative quantity
    pushed past the column, or the exception of the helper lookup. *)
Theorem facade_failed_purchase_writes_nothing
  (gf : string -> outcome model_class) (self : Availability.t)
  (q : Z) (db : Database) (e : exn) :
  (Availability.record_purchase gf self q db).1 = Raises e ->
  (Availability.record_purchase gf self q db).2 = db
  /\ (e = QuantityExceedsAvailable
      \/ (e = OverflowError /\ q < 0)
      \/ (Availability.helper gf self db).1 = Raises e).
Proof.
  pose proof (helper_reads_only gf self db) as H.
  pose proof (helper_countdown_row gf self db) as Hrow.
  unfold Availability.record_purchase, mbind, M_bind, bind.
  destruct (Availability.helper gf self db) as [[h|e'] db']; cbn in H, Hrow; subst db'.
  - destruct h as [b|c|d].
    + discriminate.
    + destruct (Hrow c eq_refl) as (k & r & Hsole & ->).
      assert (Hav : countdown_row_availability r = Availability.pk self) by apply Hsole.
      rewrite <- Hav in Hsole.
      rewrite (helper_record_purchase_countdown db k r q Hsole).
      destruct (Z.gtb_spec q (countdown_row_num_products r)).
      * cbn. intros [= <-]. auto.
      * destruct (to_column _) as [c|] eqn:Hc; [discriminate|].
        cbn. intros [= <-]. split; [reflexivity|]. right. left.
        split; [reflexivity|].
        destruct (Z_lt_dec q 0) as [Hq|Hq]; [exact Hq|]. exfalso.
        pose proof (column_value_range (countdown_row_count r)) as Hr.
        unfold countdown_row_num_products in *.
        destruct (to_column_fits
                    (Z.max (column_value (countdown_row_count r) - q) 0))
          as (c & Hc' & _); [unfold integer_min in *; lia | congruence].
    + discriminate.
  - cbn. intros [= <-]. auto.
Qed.

Lemma facade_failed_purchase_writes_nothing_witness :
  (Availability.record_purchase sample_gf (sample_availability 2 "countdown") 6
     sample_db).2 = sample_db
  /\ (QuantityExceedsAvailable = QuantityExceedsAvailable
      \/ (QuantityExceedsAvailable = OverflowError /\ 6 < 0)
      \/ (Availability.helper sample_gf (sample_availability 2 "countdown")
            sample_db).1 = Raises QuantityExceedsAvailable).
Proof.
  apply (facade_failed_purchase_writes_nothing sample_gf
           (sample_availability 2 "countdown") 6 sample_db QuantityExceedsAvailable).
  vm_compute. reflexivity.
Defined.

(** X10.  A boolean availability with its one helper row: [available()]
    returns the flag stored in that row, and [record_purchase(q)] returns
    for every [q]; neither writes. *)
Theorem facade_boolean
  (gf : string -> outcome model_class) (today : date) (self : Availability.t)
  (q : Z) (db : Database) (k : positive) (r : BooleanAvailability_row) :
  gf (AvailabilityType.code (Availability.availability_type self))
    = Returns cls_BooleanAvailability ->
  sole_row boolean_row_availability (Availability.pk self) (boolean_table db) k r ->
  Availability.available gf today self db
    = (Returns (boolean_row_is_available r), db)
  /\ Availability.record_purchase gf self q db = (Returns tt, db).
Proof.
  intros Hgf Hsole.
  pose proof (helper_boolean_sole gf self db k r Hgf Hsole) as Hh.
  unfold Availability.available, Availability.record_purchase, mbind, M_bind, bind.
  rewrite Hh. split; reflexivity.
Qed.

Lemma sample_boolean_sole :
  sole_row boolean_row_availability 1 (boolean_table sample_db) 1 (mk_boolean_row 1 true).
Proof.
  split; [reflexivity|]. split; [reflexivity|].
  intros k' r' H _. cbn in H.
  destruct (decide (k' = 1%positive)) as [->|Hne]; [reflexivity|].
  rewrite lookup_singleton_ne in H by congruence. discriminate.
Qed.

Lemma sample_countdown_sole :
  sole_row countdown_row_availability 2 (countdown_table sample_db) 1
    (sample_countdown_row (mk_column_int 5 I)).
Proof.
  split; [reflexivity|]. split; [reflexivity|].
  intros k' r' H _. cbn in H.
  destruct (decide (k' = 1%positive)) as [->|Hne]; [reflexivity|].
  rewrite lookup_singleton_ne in H by congruence. discriminate.
Qed.

Lemma facade_boolean_witness :
  Availability.available sample_gf (mk_date 2024 6 15)
    (sample_availability 1 "boolean") sample_db
    = (Returns true, sample_db)
  /\ Availability.record_purchase sample_gf (sample_availability 1 "boolean") 4 sample_db
    = (Returns tt, sample_db).
Proof.
  apply (facade_boolean sample_gf (mk_date 2024 6 15)
           (sample_availability 1 "boolean") 4 sample_db 1 (mk_boolean_row 1 true)).
  - reflexivity.
  - exact sample_boolean_sole.
Defined.

Section FacadeCountdown.

Variable gf : string -> outcome model_class.
Variable self : Availability.t.
Hypothesis Hgf :
  gf (AvailabilityType.code (Availability.availability_type self))
    = Returns cls_CountdownAvailability.

Local Abbreviation refers tb k r :=
  (sole_row countdown_row_availability (Availability.pk self) tb k r).

(** The facade purchase on the one countdown row, spelled out. *)
Lemma facade_countdown_purchase_eq (db : Database) (k : positive)
  (r : CountdownAvailability_row) (q : Z) :
  refers (countdown_table db) k r ->
  Availability.record_purchase gf self q db
  = if q >? countdown_row_num_products r
    then (Raises QuantityExceedsAvailable, db)
    else match to_column (Z.max (countdown_row_num_products r - q) 0) with
         | None => (Raises OverflowError, db)
         | Some c =>
             (Returns tt,
              mk_db (boolean_table db)
                (mk_table
                   (<[k := mk_countdown_row (Availability.pk self) c]>
                      (rows (countdown_table db)))
                   (next_pk (countdown_table db)))
                (daterange_table db))
         end.
Proof.
  intros Hsole.
  pose proof (helper_countdown_sole gf self db k r Hgf Hsole) as Hh.
  unfold Availability.record_purchase, mbind, M_bind, bind.
  rewrite Hh.
  assert (Hav : countdown_row_availability r = Availability.pk self) by apply Hsole.
  rewrite <- Hav in Hsole |- *.
  apply helper_record_purchase_countdown, Hsole.
Qed.

Lemma facade_countdown_available_eq (today : date) (db : Database) (k : positive)
  (r : CountdownAvailability_row) :
  refers (countdown_table db) k r ->
  Availability.available gf today self db
  = (Returns (if countdown_row_num_products r >? 0 then true else false), db).
Proof.
  intros Hsole.
  pose proof (helper_countdown_sole gf self db k r Hgf Hsole) as Hh.
  unfold Availability.available, mbind, M_bind, bind.
  rewrite Hh. reflexivity.
Qed.

(** A facade purchase that fits: the row then holds [N - q] and is still
    the one row of the availability. *)
Lemma facade_countdown_purchase_fits (db : Database) (k : positive)
  (r : CountdownAvailability_row) (q : Z) :
  refers (countdown_table db) k r ->
  q <= countdown_row_num_products r ->
  countdown_row_num_products r - q <= integer_max ->
  exists r',
    countdown_row_num_products r' = countdown_row_num_products r - q
    /\ countdown_row_availability r' = Availability.pk self
    /\ Availability.record_purchase gf self q db
       = (Returns tt,
          mk_db (boolean_table db)
            (mk_table (<[k := r']> (rows (countdown_table db)))
               (next_pk (countdown_table db)))
            (daterange_table db))
    /\ refers (mk_table (<[k := r']> (rows (countdown_table db)))
                 (next_pk (countdown_table db))) k r'.
Proof.
  intros Hsole Hq Hmax.
  rewrite (facade_countdown_purchase_eq db k r q Hsole).
  destruct (Z.gtb_spec q (countdown_row_num_products r)); [lia|].
  rewrite Z.max_l by lia.
  destruct (to_column_fits (countdown_row_num_products r - q)) as (c & -> & Hv);
    [unfold integer_min; lia|].
  exists (mk_countdown_row (Availability.pk self) c).
  split; [exact Hv|]. split; [reflexivity|]. split; [reflexivity|].
  apply (sole_row_update _ _ _ _ r); [exact Hsole | reflexivity].
Qed.

(** [n] facade purchases of one unit against a stored count of [n + m]:
    every call returns, and the row then holds [m]. *)
Lemma facade_purchases_of_one (n : nat) (m : Z) (db : Database) (k : positive)
  (r : CountdownAvailability_row) :
  0 <= m ->
  refers (countdown_table db) k r ->
  countdown_row_num_products r = Z.of_nat n + m ->
  let res := Availability.record_purchases gf self (replicate n 1) db in
  res.1 = replicate n (Returns tt)
  /\ exists r',
       refers (countdown_table res.2) k r'
       /\ countdown_row_num_products r' = m.
Proof.
  intros Hm. revert db r.
  induction n as [|n IH]; intros db r Hsole HN; cbn zeta.
  - cbn. split; [reflexivity|]. exists r. split; [exact Hsole | lia].
  - cbn [replicate Availability.record_purchases].
    pose proof (column_value_range (countdown_row_count r)) as Hr.
    fold (countdown_row_num_products r) in Hr.
    destruct (facade_countdown_purchase_fits db k r 1 Hsole)
      as (r' & Hv & _ & -> & Hsole'); [lia | lia |].
    cbn [fst snd].
    match goal with
    | |- context [Availability.record_purchases gf self _ ?d] =>
        destruct (IH d r') as [IH1 IH2]; [exact Hsole' | lia |]
    end.
    cbn zeta in IH1, IH2. rewrite IH1. split; [reflexivity | exact IH2].
Qed.

End FacadeCountdown.

(** X11.  A countdown availability with its one helper row holding [N]:
    through the facade, [available()] answers [N > 0];
    [record_purchase(q)] with [q > N] raises [QuantityExceedsAvailable]
    and writes nothing; with [q <= N] and [N - q] within the column it
    returns, the row holds [N - q], and the next [helper] access reads
    an instance with that count; with [N - q] beyond the column it
    raises [OverflowError] and writes nothing. *)
Theorem facade_countdown
  (gf : string -> outcome model_class) (today : date) (self : Availability.t)
  (q : Z) (db : Database) (k : positive) (r : CountdownAvailability_row) :
  gf (AvailabilityType.code (Availability.availability_type self))
    = Returns cls_CountdownAvailability ->
  sole_row countdown_row_availability (Availability.pk self) (countdown_table db) k r ->
  let N := countdown_row_num_products r in
  let res := Availability.record_purchase gf self q db in
  (exists b : bool,
     Availability.available gf today self db = (Returns b, db)
     /\ (b = true <-> N > 0))
  /\ (q > N -> res = (Raises QuantityExceedsAvailable, db))
  /\ (q <= N -> N - q <= integer_max ->
      res.1 = Returns tt
      /\ CountdownAvailability.stored_num_products k res.2 = Some (N - q)
      /\ Availability.helper gf self res.2
         = (Returns (CountdownHelper
              (CountdownAvailability.mk (Some k) (Availability.pk self) (N - q))),
            res.2))
  /\ (q <= N -> integer_max < N - q -> res = (Raises OverflowError, db)).
Proof.
  intros Hgf Hsole N res. subst res.
  rewrite (facade_countdown_available_eq gf self Hgf today db k r Hsole).
  fold N. split; [|split; [|split]].
  - eexists. split; [reflexivity|].
    destruct (Z.gtb_spec N 0); split; intros; try discriminate; try reflexivity; lia.
  - intros Hq. rewrite (facade_countdown_purchase_eq gf self Hgf db k r q Hsole).
    fold N. destruct (Z.gtb_spec q N); [reflexivity | lia].
  - intros Hq Hmax.
    destruct (facade_countdown_purchase_fits gf self Hgf db k r q Hsole Hq Hmax)
      as (r' & Hv & Hav & -> & Hsole').
    cbn [fst snd]. split; [reflexivity|]. split.
    + unfold CountdownAvailability.stored_num_products. cbn.
      rewrite lookup_insert_eq. cbn. f_equal. exact Hv.
    + rewrite (helper_countdown_sole gf self
                 (mk_db (boolean_table db)
                    (mk_table (<[k := r']> (rows (countdown_table db)))
                       (next_pk (countdown_table db)))
                    (daterange_table db)) k r' Hgf Hsole').
      unfold CountdownAvailability.of_row. cbn. rewrite Hav, Hv. reflexivity.
  - intros Hq Hmax. rewrite (facade_countdown_purchase_eq gf self Hgf db k r q Hsole).
    fold N. destruct (Z.gtb_spec q N); [lia|].
    rewrite to_column_overflow; [reflexivity | lia].
Qed.

Lemma facade_countdown_witness :
  let self := sample_availability 2 "countdown" in
  let res := Availability.record_purchase sample_gf self 3 sample_db in
  (exists b : bool,
     Availability.available sample_gf (mk_date 2024 6 15) self sample_db
       = (Returns b, sample_db)
     /\ (b = true <-> 5 > 0))
  /\ (3 > 5 -> res = (Raises QuantityExceedsAvailable, sample_db))
  /\ (3 <= 5 -> 5 - 3 <= integer_max ->
      res.1 = Returns tt
      /\ CountdownAvailability.stored_num_products 1 res.2 = Some (5 - 3)
      /\ Availability.helper sample_gf self res.2
         = (Returns (CountdownHelper (CountdownAvailability.mk (Some 1%positive) 2 (5 - 3))),
            res.2))
  /\ (3 <= 5 -> integer_max < 5 - 3 -> res = (Raises OverflowError, sample_db)).
Proof.
  apply (facade_countdown sample_gf (mk_date 2024 6 15)
           (sample_availability 2 "countdown") 3 sample_db 1
           (sample_countdown_row (mk_column_int 5 I))).
  - reflexivity.
  - exact sample_countdown_sole.
Defined.

(** X12.  Selling out through the facade: against a stored count of [n],
    [n] calls [record_purchase(1)] all return and leave the row at 0;
    after them [available()] answers [False] and one more
    [record_purchase(1)] raises [QuantityExceedsAvailable] and writes
    nothing. *)
Theorem facade_sells_out
  (gf : string -> outcome model_class) (today : date) (self : Availability.t)
  (n : nat) (db : Database) (k : positive) (r : CountdownAvailability_row) :
  gf (AvailabilityType.code (Availability.availability_type self))
    = Returns cls_CountdownAvailability ->
  sole_row countdown_row_availability (Availability.pk self) (countdown_table db) k r ->
  countdown_row_num_products r = Z.of_nat n ->
  let res := Availability.record_purchases gf self (replicate n 1) db in
  res.1 = replicate n (Returns tt)
  /\ CountdownAvailability.stored_num_products k res.2 = Some 0
  /\ Availability.available gf today self res.2 = (Returns false, res.2)
  /\ Availability.record_purchase gf self 1 res.2
     = (Raises QuantityExceedsAvailable, res.2).
Proof.
  intros Hgf Hsole HN.
  destruct (facade_purchases_of_one gf self Hgf n 0 db k r) as (H1 & r' & H2 & H0);
    [lia | exact Hsole | lia |].
  cbn zeta in *. split; [exact H1|].
  split.
  { unfold CountdownAvailability.stored_num_products.
    destruct H2 as (-> & _). cbn. f_equal. exact H0. }
  split.
  - rewrite (facade_countdown_available_eq gf self Hgf today _ k _ H2), H0. reflexivity.
  - rewrite (facade_countdown_purchase_eq gf self Hgf _ k _ 1 H2), H0. reflexivity.
Qed.

Lemma facade_sells_out_witness :
  let self := sample_availability 2 "countdown" in
  let res := Availability.record_purchases sample_gf self (replicate 5 1) sample_db in
  res.1 = replicate 5 (Returns tt)
  /\ CountdownAvailability.stored_num_products 1 res.2 = Some 0
  /\ Availability.available sample_gf (mk_date 2024 6 15) self res.2
     = (Returns false, res.2)
  /\ Availability.record_purchase sample_gf self 1 res.2
     = (Raises QuantityExceedsAvailable, res.2).
Proof.
  apply (facade_sells_out sample_gf (mk_date 2024 6 15)
           (sample_availability 2 "countdown") 5 sample_db 1
           (sample_countdown_row (mk_column_int 5 I))).
  - reflexivity.
  - exact sample_countdown_sole.
  - reflexivity.
Defined.

(** X13.  A facade purchase, whatever its outcome, creates and deletes no
    row and hands out no key; it leaves the boolean and date-range
    tables alone, and every countdown row that belongs to another
    availability keeps its content. *)
Theorem facade_purchase_frame
  (gf : string -> outcome model_class) (self : Availability.t)
  (q : Z) (db : Database) :
  let db' := (Availability.record_purchase gf self q db).2 in
  boolean_table db' = boolean_table db
  /\ daterange_table db' = daterange_table db
  /\ next_pk (countdown_table db') = next_pk (countdown_table db)
  /\ dom (rows (countdown_table db')) = dom (rows (countdown_table db))
  /\ (forall k r,
        rows (countdown_table db) !! k = Some r ->
        countdown_row_availability r <> Availability.pk self ->
        rows (countdown_table db') !! k = Some r).
Proof.
  cbn zeta.
  pose proof (helper_reads_only gf self db) as H.
  pose proof (helper_countdown_row gf self db) as Hrow.
  unfold Availability.record_purchase, mbind, M_bind, bind.
  destruct (Availability.helper gf self db) as [[h|e] db0]; cbn in H, Hrow; subst db0;
    [|cbn; auto 6].
  destruct h as [b|c|d]; try (cbn; auto 6; fail).
  destruct (Hrow c eq_refl) as (k0 & r0 & Hsole & ->).
  assert (Hav : countdown_row_availability r0 = Availability.pk self) by apply Hsole.
  assert (Hk0 : rows (countdown_table db) !! k0 = Some r0) by apply Hsole.
  rewrite <- Hav in Hsole.
  rewrite (helper_record_purchase_countdown db k0 r0 q Hsole).
  destruct (q >? countdown_row_num_products r0); cbn; [auto 6|].
  destruct (to_column _) as [c|]; cbn; [|auto 6].
  repeat split.
  - rewrite dom_insert_L.
    assert (Hin : k0 ∈ dom (rows (countdown_table db))) by (apply elem_of_dom; eauto).
    apply subseteq_union_1_L, singleton_subseteq_l, Hin.
  - intros k r Hk Hne. rewrite lookup_insert_ne; [exact Hk|].
    intros ->. rewrite Hk0 in Hk. injection Hk as <-. contradiction.
Qed.

(** X14.  A boolean or countdown availability without a helper row: both
    facade methods raise that model's [DoesNotExist] and write nothing. *)
Theorem facade_missing_row
  (gf : string -> outcome model_class) (today : date) (self : Availability.t)
  (q : Z) (db : Database) :
  let code := AvailabilityType.code (Availability.availability_type self) in
  (gf code = Returns cls_BooleanAvailability ->
   (forall k r, rows (boolean_table db) !! k = Some r ->
      boolean_row_availability r <> Availability.pk self) ->
   Availability.available gf today self db
     = (Raises (DoesNotExist cls_BooleanAvailability), db)
   /\ Availability.record_purchase gf self q db
     = (Raises (DoesNotExist cls_BooleanAvailability), db))
  /\ (gf code = Returns cls_CountdownAvailability ->
      (forall k r, rows (countdown_table db) !! k = Some r ->
         countdown_row_availability r <> Availability.pk self) ->
      Availability.available gf today self db
        = (Raises (DoesNotExist cls_CountdownAvailability), db)
      /\ Availability.record_purchase gf self q db
        = (Raises (DoesNotExist cls_CountdownAvailability), db)).
Proof.
  cbn zeta. split; intros Hgf Hno; apply facade_propagates_lookup.
  - apply boolean_row_missing; assumption.
  - apply countdown_row_missing; assumption.
Qed.

Lemma facade_missing_row_witness :
  Availability.available sample_gf (mk_date 2024 6 15)
    (sample_availability 7 "countdown") sample_db
    = (Raises (DoesNotExist cls_CountdownAvailability), sample_db)
  /\ Availability.record_purchase sample_gf (sample_availability 7 "countdown") 1 sample_db
    = (Raises (DoesNotExist cls_CountdownAvailability), sample_db).
Proof.
  apply (facade_missing_row sample_gf (mk_date 2024 6 15)
           (sample_availability 7 "countdown") 1 sample_db).
  - reflexivity.
  - intros k r H. cbn in H.
    destruct (decide (k = 1%positive)) as [->|Hne].
    + rewrite lookup_singleton_eq in H. injection H as <-. cbn. discriminate.
    + rewrite lookup_singleton_ne in H by congruence. discriminate.
Defined.

(** ** More on DateRangeAvailability *)

Lemma daterange_available_true
  (today : date) (self : DateRangeAvailability.t) (db : Database) :
  (DateRangeAvailability.available today (self, db)).1 = Returns true
  <-> (forall s, DateRangeAvailability.start_date self = Some s -> ~ before today s)
      /\ (forall e, DateRangeAvailability.end_date self = Some e -> ~ before e today).
Proof.
  rewrite daterange_available_eq. cbn [fst].
  destruct (DateRangeAvailability.start_date self) as [s|];
    destruct (DateRangeAvailability.end_date self) as [e|]; cbn;
    try (pose proof (date_lt_before today s) as Hs; destruct (date_lt today s));
    try (pose proof (date_gt_before today e) as He; destruct (date_gt today e));
    split; try discriminate; try reflexivity;
    try (intros _; split; intros x [= <-]; intros Hb;
         match goal with H : _ <-> before _ _ |- _ =>
           apply H in Hb; discriminate end);
    try (intros _; split; intros x; discriminate);
    try (intros [H1 H2]; exfalso;
         first [ apply (H1 s eq_refl); tauto | apply (H2 e eq_refl); tauto ]).
Qed.

(** X15.  The days on which a date range is available form an interval:
    available on two days, it is available on every day between them. *)
Theorem daterange_window_is_interval
  (self : DateRangeAvailability.t) (db : Database) (d1 d2 d3 : date) :
  (DateRangeAvailability.available d1 (self, db)).1 = Returns true ->
  (DateRangeAvailability.available d3 (self, db)).1 = Returns true ->
  ~ before d2 d1 ->
  ~ before d3 d2 ->
  (DateRangeAvailability.available d2 (self, db)).1 = Returns true.
Proof.
  intros H1 H3 H12 H23.
  apply daterange_available_true in H1. apply daterange_available_true in H3.
  apply daterange_available_true.
  destruct H1 as [H1s _]. destruct H3 as [_ H3e].
  split.
  - intros s Hs Hb. apply (H1s s Hs). unfold before in *. lia.
  - intros e He Hb. apply (H3e e He). unfold before in *. lia.
Qed.

Lemma daterange_window_is_interval_witness :
  (DateRangeAvailability.available (mk_date 2024 6 15)
     (DateRangeAvailability.mk (Some 1%positive)
        (Some (mk_date 2024 1 1)) (Some (mk_date 2024 12 31)), sample_db)).1
  = Returns true.
Proof.
  apply (daterange_window_is_interval
           (DateRangeAvailability.mk (Some 1%positive)
              (Some (mk_date 2024 1 1)) (Some (mk_date 2024 12 31)))
           sample_db (mk_date 2024 1 1) (mk_date 2024 6 15) (mk_date 2024 12 31));
    [reflexivity | reflexivity | unfold before; cbn; lia | unfold before; cbn; lia].
Defined.

(** X16.  Both bounds are inclusive: a date range is available on its
    [start_date] and on its [end_date], unless the other bound, set on
    the wrong side of it, excludes that day. *)
Theorem daterange_bounds_inclusive
  (self : DateRangeAvailability.t) (db : Database) :
  (forall s, DateRangeAvailability.start_date self = Some s ->
     (forall e, DateRangeAvailability.end_date self = Some e -> ~ before e s) ->
     (DateRangeAvailability.available s (self, db)).1 = Returns true)
  /\ (forall e, DateRangeAvailability.end_date self = Some e ->
        (forall s, DateRangeAvailability.start_date self = Some s -> ~ before e s) ->
        (DateRangeAvailability.available e (self, db)).1 = Returns true).
Proof.
  split.
  - intros s Hs He. apply daterange_available_true. split.
    + intros s' Hs'. rewrite Hs in Hs'. injection Hs' as <-. unfold before. lia.
    + exact He.
  - intros e He Hs. apply daterange_available_true. split.
    + exact Hs.
    + intros e' He'. rewrite He in He'. injection He' as <-. unfold before. lia.
Qed.

(** ** The text of a SKU configuration *)

Lemma append_inv_head (s a b : string) :
  String.append s a = String.append s b -> a = b.
Proof.
  induction s as [|c s IH]; cbn; [auto|]. intros [= H]. auto.
Qed.

Lemma length_append (a b : string) :
  String.length (String.append a b) = (String.length a + String.length b)%nat.
Proof.
  induction a as [|c a IH]; [reflexivity|].
  change (S (String.length (String.append a b))
          = S (String.length a + String.length b)%nat).
  f_equal. exact IH.
Qed.

Lemma append_inv_tail (s a b : string) :
  String.append a s = String.append b s -> a = b.
Proof.
  revert b. induction a as [|c a IH]; intros [|d b] H; cbn in H.
  - reflexivity.
  - apply (f_equal String.length) in H.
    change (String.length s = S (String.length (String.append b s))) in H.
    rewrite length_append in H. lia.
  - apply (f_equal String.length) in H.
    change (S (String.length (String.append a s)) = String.length s) in H.
    rewrite length_append in H. lia.
  - injection H as -> H. f_equal. apply IH, H.
Qed.

(** X17.  The text of a SKU configuration is the option's name, [" : "],
    and the value's text.  Under one option, two configurations have the
    same text only if their values have; with one value, only if their
    options have the same name; and the text is three characters longer
    than the two parts together. *)
Theorem sku_configuration_text (c1 c2 : SKUConfiguration.t) :
  (ProductOption.name (SKUConfiguration.option c1)
     = ProductOption.name (SKUConfiguration.option c2) ->
   SKUConfiguration.__unicode__ c1 = SKUConfiguration.__unicode__ c2 ->
   ProductOptionValue.value (SKUConfiguration.value c1)
     = ProductOptionValue.value (SKUConfiguration.value c2))
  /\ (ProductOptionValue.value (SKUConfiguration.value c1)
        = ProductOptionValue.value (SKUConfiguration.value c2) ->
      SKUConfiguration.__unicode__ c1 = SKUConfiguration.__unicode__ c2 ->
      ProductOption.name (SKUConfiguration.option c1)
        = ProductOption.name (SKUConfiguration.option c2))
  /\ String.length (SKUConfiguration.__unicode__ c1)
     = (String.length (ProductOption.name (SKUConfiguration.option c1)) + 3
        + String.length (ProductOptionValue.value (SKUConfiguration.value c1)))%nat.
Proof.
  unfold SKUConfiguration.__unicode__, ProductOption.__unicode__,
    ProductOptionValue.__unicode__.
  split; [|split].
  - intros Hn H. rewrite Hn in H.
    apply append_inv_head in H. apply (append_inv_head " : ") in H. exact H.
  - intros Hv H. rewrite Hv in H. apply append_inv_tail in H. exact H.
  - rewrite !length_append. cbn. lia.
Qed.

(** ** What the facade's [available()] can raise *)

(** X18.  [Availability.available()] raises exactly what the helper lookup
    raises: once a helper is found the call returns, so it never raises
    [QuantityExceedsAvailable] or anything of its own. *)
Theorem facade_available_raises_only_lookup
  (gf : string -> outcome model_class) (today : date)
  (self : Availability.t) (db : Database) (e : exn) :
  (Availability.available gf today self db).1 = Raises e
  <-> (Availability.helper gf self db).1 = Raises e.
Proof.
  unfold Availability.available, mbind, M_bind, bind.
  destruct (Availability.helper gf self db) as [[h|e'] db']; cbn [fst].
  - destruct h; unfold helper_available, with_object.
    + split; discriminate.
    + split; discriminate.
    + rewrite daterange_available_eq. split; discriminate.
  - split; intros [= <-]; reflexivity.
Qed.

(** ** Callers that interleave *)

Section Interleavings.

Variable gf : string -> outcome model_class.
Variable self : Availability.t.

(** A caller that is let go twice in a row has run
    [Availability.record_purchase]. *)
Lemma uninterrupted_call (cs : list caller) (db : Database) (i : nat) (q : Z) :
  cs !! i = Some (Calling q) ->
  Interleaving.step_at gf self (Interleaving.step_at gf self (cs, db) i) i
  = (<[i := Finished (Availability.record_purchase gf self q db).1]> cs,
     (Availability.record_purchase gf self q db).2).
Proof.
  intros Hi. pose proof (lookup_lt_Some _ _ _ Hi) as Hlt.
  unfold Interleaving.step_at at 2. cbn [fst snd]. rewrite Hi.
  unfold Availability.record_purchase, mbind, M_bind, bind.
  cbn [Interleaving.step].
  destruct (Availability.helper gf self db) as [[h|e] db']; cbn [fst snd].
  - unfold Interleaving.step_at. cbn [fst snd].
    rewrite list_lookup_insert_eq by exact Hlt.
    cbn [Interleaving.step fst snd]. rewrite list_insert_insert_eq.
    destruct (helper_record_purchase h q db'). reflexivity.
  - unfold Interleaving.step_at. cbn [fst snd].
    rewrite list_lookup_insert_eq by exact Hlt.
    cbn [Interleaving.step fst snd]. rewrite list_insert_insert_eq. reflexivity.
Qed.

Hypothesis Hgf :
  gf (AvailabilityType.code (Availability.availability_type self))
    = Returns cls_CountdownAvailability.

(** One after the other, behind callers that are through: [m] callers of
    [record_purchase(1)] against a stored count of [m + rest] all
    return, and the row then holds [rest]. *)
Lemma one_by_one_from (m : nat) (rest : Z) (done : list caller) (db : Database)
  (k : positive) (r : CountdownAvailability_row) :
  0 <= rest ->
  sole_row countdown_row_availability (Availability.pk self) (countdown_table db) k r ->
  countdown_row_num_products r = Z.of_nat m + rest ->
  let st := Interleaving.run gf self
              (flat_map (fun i => [i; i]) (seq (length done) m))
              (done ++ replicate m (Calling 1), db) in
  st.1 = done ++ replicate m (Finished (Returns tt))
  /\ exists r',
       sole_row countdown_row_availability (Availability.pk self)
         (countdown_table st.2) k r'
       /\ countdown_row_num_products r' = rest.
Proof.
  intros Hrest. revert done db r.
  induction m as [|m IH]; intros done db r Hsole HN; cbn zeta.
  - cbn. split; [reflexivity|]. exists r. split; [exact Hsole | lia].
  - cbn [seq flat_map app replicate]. unfold Interleaving.run. cbn [foldl].
    rewrite (uninterrupted_call (done ++ Calling 1 :: replicate m (Calling 1))
               db (length done) 1)
      by (apply list_lookup_middle; reflexivity).
    pose proof (column_value_range (countdown_row_count r)) as Hr.
    fold (countdown_row_num_products r) in Hr.
    destruct (facade_countdown_purchase_fits gf self Hgf db k r 1 Hsole)
      as (r' & Hv & _ & -> & Hsole'); [lia | lia |].
    cbn [fst snd].
    replace (<[length done := Finished (Returns tt)]>
               (done ++ Calling 1 :: replicate m (Calling 1)))
      with ((done ++ [Finished (Returns tt)]) ++ replicate m (Calling 1)).
    2:{ rewrite <- app_assoc. cbn [app].
        change (Finished (Returns tt) :: replicate m (Calling 1))
          with (<[0%nat := Finished (Returns tt)]> (Calling 1 :: replicate m (Calling 1))).
        rewrite <- insert_app_r, Nat.add_0_r. reflexivity. }
    replace (S (length done)) with (length (done ++ [Finished (Returns tt)])).
    2:{ rewrite length_app. cbn. lia. }
    match goal with
    | |- context [foldl _ (_, ?d) _] =>
        destruct (IH (done ++ [Finished (Returns tt)]) d r') as [IH1 IH2];
          [exact Hsole' | lia |]
    end.
    cbn zeta in IH1, IH2. unfold Interleaving.run in IH1, IH2.
    rewrite IH1. split; [|exact IH2].
    rewrite <- app_assoc. reflexivity.
Qed.

End Interleavings.

(** C8, as the code has it.  When the [n] callers of
    [record_purchase(1)] run one after the other, none starting before
    the one before it is through, against a stored count of [n], every
    call returns and the row ends at 0.  Nothing in the code makes
    concurrent callers run that way. *)
Theorem one_by_one_sells_out
  (gf : string -> outcome model_class) (self : Availability.t)
  (n : nat) (db : Database) (k : positive) (r : CountdownAvailability_row) :
  gf (AvailabilityType.code (Availability.availability_type self))
    = Returns cls_CountdownAvailability ->
  sole_row countdown_row_availability (Availability.pk self) (countdown_table db) k r ->
  countdown_row_num_products r = Z.of_nat n ->
  let st := Interleaving.run gf self (Interleaving.one_by_one n)
              (replicate n (Calling 1), db) in
  st.1 = replicate n (Finished (Returns tt))
  /\ CountdownAvailability.stored_num_products k st.2 = Some 0.
Proof.
  intros Hgf Hsole HN.
  destruct (one_by_one_from gf self Hgf n 0 [] db k r) as (H1 & r' & H2 & H0);
    [lia | exact Hsole | lia |].
  cbn zeta in *. cbn [length app] in H1, H2. unfold Interleaving.one_by_one.
  split; [exact H1|].
  unfold CountdownAvailability.stored_num_products.
  destruct H2 as (-> & _). cbn. f_equal. exact H0.
Qed.

Lemma one_by_one_sells_out_witness :
  let st := Interleaving.run sample_gf (sample_availability 2 "countdown")
              (Interleaving.one_by_one 5) (replicate 5 (Calling 1), sample_db) in
  st.1 = replicate 5 (Finished (Returns tt))
  /\ CountdownAvailability.stored_num_products 1 st.2 = Some 0.
Proof.
  apply (one_by_one_sells_out sample_gf (sample_availability 2 "countdown") 5
           sample_db 1 (sample_countdown_row (mk_column_int 5 I))).
  - reflexivity.
  - exact sample_countdown_sole.
  - reflexivity.
Defined.

(** C8 as stated fails: five callers of [record_purchase(1)] against a
    stored count of 5, each reading the row before any of them writes.
    All five calls return, and the row ends at 4, not at 0. *)
Lemma lost_update :
  let self := sample_availability 2 "countdown" in
  let st := Interleaving.run sample_gf self (Interleaving.all_read_first 5)
              (replicate 5 (Calling 1), sample_db) in
  CountdownAvailability.stored_num_products 1 sample_db = Some 5
  /\ st.1 = replicate 5 (Finished (Returns tt))
  /\ CountdownAvailability.stored_num_products 1 st.2 = Some 4
  /\ CountdownAvailability.stored_num_products 1 st.2 <> Some 0.
Proof.
  vm_compute. repeat split; try reflexivity; discriminate.
Qed.
